(** * docker-engine-access: request building and response mapping

    A shallow embedding of the two operation modules of the library
    ([ImageModule] and [ContainerModule]) together with the part of the
    JavaScript platform they call into: strings, [Buffer], [JSON.stringify],
    [URL] / [URLSearchParams], promises and the axios client.

    Conventions of the embedding.
    - A JavaScript string is a Rocq [string] holding its UTF-8 bytes.
    - A [number] argument is an integer in [Z] (the documented arguments are
      counts, sizes and timestamps), printed in decimal as JavaScript prints
      integers below 10^21; [0] is the only falsy number modelled.
    - An optional argument [x?: T] is an [option T]; [None] is [undefined].
    - The WHATWG URL parser is a parameter of the development
      ([URL_parse]); everything the modules do with the parsed URL
      (appending search parameters, serialising) is modelled concretely. *)

From Stdlib Require Import String Ascii List ZArith NArith Lia Bool.
From Stdlib Require Import DecimalString.
From Stdlib.Strings Require Import Byte.
Import ListNotations.

Local Open Scope string_scope.
Local Open Scope Z_scope.

(** ** Strings and bytes *)

Definition Buffer := list byte.

(** [Buffer.from(s)] with the default UTF-8 encoding. *)
Definition Buffer_from (s : string) : Buffer := list_byte_of_string s.

Definition byteLength (b : Buffer) : Z := Z.of_nat (length b).

Definition byte_code (b : byte) : N := Byte.to_N b.

Definition hex_digit (upper : bool) (n : N) : ascii :=
  if (n <? 10)%N then ascii_of_N (48 + n)
  else ascii_of_N ((if upper then 55 else 87) + n).

Definition hex_pair (upper : bool) (n : N) : string :=
  String (hex_digit upper (n / 16)) (String (hex_digit upper (n mod 16)) "").

(** [Number.prototype.toString] on an integer: the decimal digits, which is
    what JavaScript prints for the integers it represents exactly and writes
    without exponent, the safe integers among them. *)
Definition Number_toString (n : Z) : string :=
  NilZero.string_of_int (Z.to_int n).

(** [Number.isSafeInteger]: up to 2^53 - 1 in magnitude. *)
Definition Number_isSafeInteger (n : Z) : bool :=
  Z.abs n <=? 2 ^ 53 - 1.

Definition Boolean_toString (b : bool) : string :=
  if b then "true" else "false".

(** Truthiness of the argument types the modules test with [if (x)]. *)
Class Truthy (A : Type) := truthy : A -> bool.

#[global] Instance Truthy_bool : Truthy bool := fun b => b.
#[global] Instance Truthy_number : Truthy Z := fun n => negb (n =? 0).
#[global] Instance Truthy_string : Truthy string :=
  fun s => match s with EmptyString => false | _ => true end.
(** Arrays and objects are truthy whatever they hold. *)
#[global] Instance Truthy_array {A} : Truthy (list A) := fun _ => true.
#[global] Instance Truthy_option {A} `{Truthy A} : Truthy (option A) :=
  fun o => match o with Some a => truthy a | None => false end.

(** ** JSON values and [JSON.stringify] *)

#[warnings="-register-all"]
Inductive Json : Type :=
| JNull
| JBool (b : bool)
| JNum (n : Z)
| JStr (s : string)
| JArr (items : list Json)
| JObj (fields : list (string * Json)).

Definition dquote : ascii := ascii_of_N 34.
Definition backslash : ascii := ascii_of_N 92.

Definition str1 (c : ascii) : string := String c "".
Definition esc (c : string) : string := String backslash c.

(** QuoteJSONString, one byte at a time: bytes of a multi-byte UTF-8
    sequence are at least 0x80 and pass through unchanged. *)
Definition json_escape_char (c : ascii) : string :=
  let n := N_of_ascii c in
  if (n =? 34)%N then esc (str1 dquote)
  else if (n =? 92)%N then esc (str1 backslash)
  else if (n =? 8)%N then esc "b"
  else if (n =? 12)%N then esc "f"
  else if (n =? 10)%N then esc "n"
  else if (n =? 13)%N then esc "r"
  else if (n =? 9)%N then esc "t"
  else if (n <? 32)%N then esc ("u00" ++ hex_pair false n)
  else str1 c.

Fixpoint json_escape (s : string) : string :=
  match s with
  | EmptyString => ""
  | String c s' => json_escape_char c ++ json_escape s'
  end.

Definition json_quote (s : string) : string :=
  str1 dquote ++ json_escape s ++ str1 dquote.

Fixpoint join (sep : string) (l : list string) : string :=
  match l with
  | [] => ""
  | [x] => x
  | x :: rest => x ++ sep ++ join sep rest
  end.

(** [JSON.stringify(v)] without indentation. *)
Fixpoint JSON_stringify (v : Json) : string :=
  match v with
  | JNull => "null"
  | JBool b => Boolean_toString b
  | JNum n => Number_toString n
  | JStr s => json_quote s
  | JArr items => "[" ++ join "," (map JSON_stringify items) ++ "]"
  | JObj fields =>
      "{" ++ join "," (map (fun kv => json_quote (fst kv) ++ ":" ++ JSON_stringify (snd kv)) fields) ++ "}"
  end.

(** The object shapes of the optional arguments, as JSON values. *)
Definition StringMap := list (string * string).       (* { [key: string]: string } *)
Definition FilterMap := list (string * list string).  (* { [key: string]: string[] } *)

Definition json_of_strings (l : list string) : Json := JArr (map JStr l).
Definition json_of_map (m : StringMap) : Json :=
  JObj (map (fun kv => (fst kv, JStr (snd kv))) m).
Definition json_of_filters (m : FilterMap) : Json :=
  JObj (map (fun kv => (fst kv, json_of_strings (snd kv))) m).

(** ** [Buffer.prototype.toString] *)

(** *** [toString('base64')] *)

Definition base64_char (n : N) : ascii :=
  if (n <? 26)%N then ascii_of_N (65 + n)
  else if (n <? 52)%N then ascii_of_N (97 + (n - 26))
  else if (n <? 62)%N then ascii_of_N (48 + (n - 52))
  else if (n =? 62)%N then "+"%char
  else "/"%char.

Fixpoint base64 (b : Buffer) : string :=
  match b with
  | [] => ""
  | [x] =>
      let n := byte_code x in
      String (base64_char (n / 4))
        (String (base64_char ((n mod 4) * 16)) "==")
  | [x; y] =>
      let n := (byte_code x * 256 + byte_code y)%N in
      String (base64_char (n / 1024))
        (String (base64_char ((n / 16) mod 64))
           (String (base64_char ((n mod 16) * 4)) "="))
  | x :: y :: z :: rest =>
      let n := (byte_code x * 65536 + byte_code y * 256 + byte_code z)%N in
      String (base64_char (n / 262144))
        (String (base64_char ((n / 4096) mod 64))
           (String (base64_char ((n / 64) mod 64))
              (String (base64_char (n mod 64)) (base64 rest))))
  end.

(** *** [toString()] : UTF-8 decoding with replacement

    The decoder replaces every maximal ill-formed subsequence by U+FFFD.
    The resulting string is kept as UTF-8 bytes, so a well-formed sequence is
    copied and an ill-formed one becomes EF BF BD. *)

Record Utf8State := {
  needed : nat;          (* continuation bytes still expected *)
  pending : list byte;   (* bytes of the sequence read so far *)
  lower : N;             (* bounds for the next continuation byte *)
  upper : N
}.

Definition utf8_idle : Utf8State :=
  {| needed := 0; pending := []; lower := 128; upper := 191 |}.

Definition replacement : list byte := [xef; xbf; xbd].

(** A byte read when no sequence is open. *)
Definition utf8_lead (b : byte) : Utf8State * list byte :=
  let n := byte_code b in
  if (n <=? 127)%N then (utf8_idle, [b])
  else if ((194 <=? n) && (n <=? 223))%N then
    ({| needed := 1; pending := [b]; lower := 128; upper := 191 |}, [])
  else if ((224 <=? n) && (n <=? 239))%N then
    ({| needed := 2; pending := [b];
        lower := if (n =? 224)%N then 160 else 128;
        upper := if (n =? 237)%N then 159 else 191 |}, [])
  else if ((240 <=? n) && (n <=? 244))%N then
    ({| needed := 3; pending := [b];
        lower := if (n =? 240)%N then 144 else 128;
        upper := if (n =? 244)%N then 143 else 191 |}, [])
  else (utf8_idle, replacement).

Definition utf8_step (st : Utf8State) (b : byte) : Utf8State * list byte :=
  match needed st with
  | O => utf8_lead b
  | S k =>
      let n := byte_code b in
      if ((lower st <=? n) && (n <=? upper st))%N then
        match k with
        | O => (utf8_idle, (pending st ++ [b])%list)
        | S _ => ({| needed := k; pending := (pending st ++ [b])%list;
                     lower := 128; upper := 191 |}, [])
        end
      else
        (* the open sequence is ill-formed; the byte is read again *)
        let r := utf8_lead b in (fst r, (replacement ++ snd r)%list)
  end.

Fixpoint utf8_decode (st : Utf8State) (b : Buffer) : list byte :=
  match b with
  | [] => match needed st with O => [] | S _ => replacement end
  | x :: rest =>
      let r := utf8_step st x in (snd r ++ utf8_decode (fst r) rest)%list
  end.

Definition Buffer_toString (b : Buffer) : string :=
  string_of_list_byte (utf8_decode utf8_idle b).

(** ** [URL] and [URLSearchParams] *)

(** The application/x-www-form-urlencoded serialiser leaves ASCII
    alphanumerics and [* - . _] alone, writes a space as [+] and
    percent-encodes every other byte. *)
Definition form_safe (n : N) : bool :=
  ((48 <=? n) && (n <=? 57) || (65 <=? n) && (n <=? 90)
   || (97 <=? n) && (n <=? 122)
   || (n =? 42) || (n =? 45) || (n =? 46) || (n =? 95))%N.

Definition form_encode_char (c : ascii) : string :=
  let n := N_of_ascii c in
  if (n =? 32)%N then "+"
  else if form_safe n then str1 c
  else String "%"%char (hex_pair true n).

Fixpoint form_encode (s : string) : string :=
  match s with
  | EmptyString => ""
  | String c s' => form_encode_char c ++ form_encode s'
  end.

Definition Params := list (string * string).

Definition form_pair (kv : string * string) : string :=
  form_encode (fst kv) ++ "=" ++ form_encode (snd kv).

Definition form_serialize (l : Params) : string :=
  join "&" (map form_pair l).

(** A parsed URL: the serialisation of everything before the query
    ([href_base]: scheme, authority and path, already normalised by the
    parser), the query (absent when [None]), the list behind
    [searchParams], and the fragment. *)
Record URL := {
  href_base : string;
  query : option string;
  searchParams : Params;
  hash : option string
}.

(** [endpoint.searchParams.append(name, value)]: the pair goes to the end of
    the list and the query of the URL becomes the serialised list. *)
Definition append (name value : string) (u : URL) : URL :=
  let l := (searchParams u ++ [(name, value)])%list in
  let s := form_serialize l in
  {| href_base := href_base u;
     query := match s with EmptyString => None | _ => Some s end;
     searchParams := l;
     hash := hash u |}.

(** [endpoint.toString()] *)
Definition URL_toString (u : URL) : string :=
  href_base u
  ++ match query u with Some q => "?" ++ q | None => "" end
  ++ match hash u with Some f => "#" ++ f | None => "" end.

(** [searchParams.getAll(name)], used to state what a built URL carries. *)
Definition getAll (name : string) (l : Params) : list string :=
  map snd (filter (fun kv => String.eqb (fst kv) name) l).

(** ** Values, exceptions and promises *)

(** The body of a daemon response as it is on the wire: a JSON document, or
    bytes that are not JSON (log output, a tarball, an empty body). *)
Inductive Payload : Type :=
| Document (j : Json)
| Raw (s : string).

(** The values that reach the caller of an operation. *)
Inductive Value : Type :=
| Undefined
| Data (j : Json)                       (* decoded response data *)
| Stream (p : Payload)                  (* an unread response stream *)
| ErrorObject (name message : string).  (* [Error], [TypeError] *)

Inductive Exc (A : Type) : Type :=
| Ok (a : A)
| Throw (e : Value).
Arguments Ok {A} a.
Arguments Throw {A} e.

Inductive Promise (A E : Type) : Type :=
| Fulfilled (a : A)
| Rejected (e : E).
Arguments Fulfilled {A E} a.
Arguments Rejected {A E} e.

(** [p.then(f)] for a callback that does not throw. *)
Definition then_ {A B E} (p : Promise A E) (f : A -> B) : Promise B E :=
  match p with
  | Fulfilled a => Fulfilled (f a)
  | Rejected e => Rejected e
  end.

(** [p.catch(h)]: what the handler returns fulfils the promise, what it
    throws rejects it. *)
Definition catch {A E} (p : Promise A E) (h : E -> Exc A) : Promise A Value :=
  match p with
  | Fulfilled a => Fulfilled a
  | Rejected e =>
      match h e with
      | Ok a => Fulfilled a
      | Throw v => Rejected v
      end
  end.

(** ** The axios client *)

Inductive Method : Type := GET | POST.

Inductive ResponseType : Type := json | stream.

Inductive Body : Type :=
| NoBody
| BodyString (s : string)
| BodyBuffer (b : Buffer)
| BodyObject (j : Json).

Inductive HeaderValue : Type :=
| HString (s : string)
| HNumber (n : Z)
| HUndefined.

Record Config := {
  headers : list (string * HeaderValue);
  responseType : ResponseType
}.

Definition default_config : Config := {| headers := []; responseType := json |}.

Record Request := {
  method : Method;
  request_url : string;
  body : Body;
  config : Config
}.

(** The bytes of a request body: a buffer as it is, an object through
    [JSON.stringify], a string as its UTF-8 bytes. For a string this is what
    axios sends unless the request has a JSON [Content-Type]; [request_bytes]
    below takes the header into account. *)
Definition wire (b : Body) : Buffer :=
  match b with
  | NoBody => []
  | BodyString s => Buffer_from s
  | BodyBuffer buf => buf
  | BodyObject j => Buffer_from (JSON_stringify j)
  end.

Record Response := {
  data : Value;
  status : Z
}.

(** An axios error carries the response when the daemon answered, and none
    when the request never got an answer. *)
Record AxiosError := {
  code : string;
  response : option Response
}.

(** What axios ends a call with: the final response, after any redirect it
    followed on its own (an interim 1xx is never the final response), or a
    failure without response. The requests of the trace are the calls made
    to axios; what axios puts on the socket for one call is behind this
    type. *)
Inductive Exchange : Type :=
| Responded (status : Z) (payload : Payload)
| Failed (code : string).   (* ECONNREFUSED, ENOTFOUND, ETIMEDOUT, ... *)

(** Response data by [responseType]: with [json] a JSON document is parsed
    and anything else stays a string; with [stream] the data is the unread
    stream, whatever the status. A [Document] is the value [JSON.parse]
    yields; it is also the document on the wire when that document is
    [safe_json] (below). *)
Definition decode (t : ResponseType) (p : Payload) : Value :=
  match t with
  | json => match p with Document j => Data j | Raw s => Data (JStr s) end
  | stream => Stream p
  end.

(** The default [validateStatus]. *)
Definition validateStatus (st : Z) : bool := (200 <=? st) && (st <? 300).

(** How axios settles the promise of a call once it has the final response
    or the failure. *)
Definition settle (r : Request) (x : Exchange) : Promise Response AxiosError :=
  match x with
  | Responded st p =>
      let resp := {| data := decode (responseType (config r)) p; status := st |} in
      if validateStatus st then Fulfilled resp
      else Rejected {| code := if st / 100 =? 4 then "ERR_BAD_REQUEST" else "ERR_BAD_RESPONSE";
                       response := Some resp |}
  | Failed c => Rejected {| code := c; response := None |}
  end.

(** ** Effects: thrown exceptions and the requests sent so far *)

Definition JS (A : Type) : Type := list Request -> Exc A * list Request.

Definition ret {A} (a : A) : JS A := fun sent => (Ok a, sent).

Definition throw {A} (e : Value) : JS A := fun sent => (Throw e, sent).

Definition bind {A B} (m : JS A) (k : A -> JS B) : JS B :=
  fun sent =>
    match m sent with
    | (Ok a, sent') => k a sent'
    | (Throw e, sent') => (Throw e, sent')
    end.

Notation "'let*' x ':=' m 'in' k" := (bind m (fun x => k))
  (at level 10, x name, m at level 100, k at level 200).

(** What a call of an operation amounts to: the requests it sent, and either
    the exception it threw or the promise it returned, settled. *)
Inductive Outcome : Type :=
| Threw (e : Value)
| Resolved (v : Value)
| RejectedWith (e : Value).

Record Run := {
  sent : list Request;
  outcome : Outcome
}.

Definition run (m : JS (Promise Value Value)) : Run :=
  let r := m [] in
  {| sent := snd r;
     outcome :=
       match fst r with
       | Ok (Fulfilled v) => Resolved v
       | Ok (Rejected e) => RejectedWith e
       | Throw e => Threw e
       end |}.

Definition Error_ (message : string) : Value := ErrorObject "Error" message.
Definition TypeError (message : string) : Value := ErrorObject "TypeError" message.

(** [x.response.data] inside a catch handler. *)
Definition response_data (x : AxiosError) : Exc Value :=
  match response x with
  | Some r => Ok (data r)
  | None => Throw (TypeError "Cannot read properties of undefined (reading 'data')")
  end.

(** The handler [x => { throw x.response.data }] of every operation. *)
Definition rethrow (x : AxiosError) : Exc Value :=
  match response_data x with
  | Ok d => Throw d
  | Throw e => Throw e
  end.

(** [if (x) f(x)] on an optional argument. *)
Definition when {A} `{Truthy A} (x : option A) (f : A -> URL -> URL) (endpoint : URL) : URL :=
  match x with
  | Some a => if truthy a then f a endpoint else endpoint
  | None => endpoint
  end.

(** [x ?? d] *)
Definition nullish {A} (x : option A) (d : A) : A :=
  match x with Some a => a | None => d end.

Definition is_undefined {A} (x : option A) : bool :=
  match x with Some _ => false | None => true end.

Definition StringArray := list string.
Definition RegistryConfig := list (string * (string * string)).

Definition json_of_registry (m : RegistryConfig) : Json :=
  JObj (map (fun kv => (fst kv, JObj [("username", JStr (fst (snd kv)));
                                      ("password", JStr (snd (snd kv)))])) m).

(** The platform the modules run on: the URL parser and the network. *)
Section Platform.
Variable URL_parse : string -> option URL.
Variable transport : Request -> Exchange.

(** [new URL(s)] throws a [TypeError] on a string that does not parse. *)
Definition URL_new (s : string) : JS URL :=
  match URL_parse s with
  | Some u => ret u
  | None => throw (TypeError "Invalid URL")
  end.

(** One call to axios: the request is added to the trace of calls, and the
    promise is settled by what axios ends the call with. *)
Definition axios (r : Request) : JS (Promise Response AxiosError) :=
  fun sent => (Ok (settle r (transport r)), (sent ++ [r])%list).

Definition axios_get (u : string) (c : Config) :=
  axios {| method := GET; request_url := u; body := NoBody; config := c |}.

Definition axios_post (u : string) (b : Body) (c : Config) :=
  axios {| method := POST; request_url := u; body := b; config := c |}.
End Platform.

(** ** Image operations *)

Module ImageModule.
Section Operations.
Variable URL_parse : string -> option URL.
Variable transport : Request -> Exchange.

(** The query parameters of [list]. *)
Definition list_endpoint (all : option bool) (filters : option FilterMap)
    (sharedSize digests : option bool) (endpoint : URL) : URL :=
  let endpoint := when all (fun all => append "all" (Boolean_toString all)) endpoint in
  let endpoint := when filters (fun filters => append "filters" (JSON_stringify (json_of_filters filters))) endpoint in
  let endpoint := when sharedSize (fun sharedSize => append "sharedSize" (Boolean_toString sharedSize)) endpoint in
  let endpoint := when digests (fun digests => append "digests" (Boolean_toString digests)) endpoint in
  endpoint.

Definition list (url : string) (all : option bool) (filters : option FilterMap)
    (sharedSize digests : option bool) : JS (Promise Value Value) :=
  let* endpoint := URL_new URL_parse (url ++ "/images/json") in
  let endpoint := list_endpoint all filters sharedSize digests endpoint in
  let* p := axios_get transport (URL_toString endpoint) default_config in
  ret (catch (then_ p (fun x => data x)) rethrow).

(** The query parameters of [build]. *)
Definition build_endpoint (dockerfile : option string) (tags : option StringArray)
    (extraHosts remote : option string) (quiet noCache : option bool)
    (cacheFrom pull : option string)
    (removeIntermediate forceRemoveIntermediate : option bool)
    (memoryLimit memorySwap cpuShares : option Z) (cpuSetCpus : option string)
    (cpuPeriod cpuQuota : option Z) (buildArgs : option StringMap)
    (shmSize : option Z) (squash : option bool) (labels : option StringMap)
    (networkMode platform target outputs : option string) (endpoint : URL) : URL :=
  let endpoint := when dockerfile (fun dockerfile => append "dockerfile" dockerfile) endpoint in
  let endpoint := when tags (fun tags endpoint => fold_left (fun endpoint x => append "t" x endpoint) tags endpoint) endpoint in
  let endpoint := when extraHosts (fun extraHosts => append "extrahosts" extraHosts) endpoint in
  let endpoint := when remote (fun remote => append "remote" remote) endpoint in
  let endpoint := when quiet (fun quiet => append "q" (Boolean_toString quiet)) endpoint in
  let endpoint := when noCache (fun noCache => append "nocache" (Boolean_toString noCache)) endpoint in
  let endpoint := when cacheFrom (fun cacheFrom => append "cachefrom" cacheFrom) endpoint in
  let endpoint := when pull (fun pull => append "pull" pull) endpoint in
  let endpoint := when removeIntermediate (fun removeIntermediate => append "rm" (Boolean_toString removeIntermediate)) endpoint in
  let endpoint := when forceRemoveIntermediate (fun forceRemoveIntermediate => append "forcerm" (Boolean_toString forceRemoveIntermediate)) endpoint in
  let endpoint := when memoryLimit (fun memoryLimit => append "memory" (Number_toString memoryLimit)) endpoint in
  let endpoint := when memorySwap (fun memorySwap => append "memswap" (Number_toString memorySwap)) endpoint in
  let endpoint := when cpuShares (fun cpuShares => append "cpushares" (Number_toString cpuShares)) endpoint in
  let endpoint := when cpuSetCpus (fun cpuSetCpus => append "cpusetcpus" cpuSetCpus) endpoint in
  let endpoint := when cpuPeriod (fun cpuPeriod => append "cpuperiod" (Number_toString cpuPeriod)) endpoint in
  let endpoint := when cpuQuota (fun cpuQuota => append "cpuquota" (Number_toString cpuQuota)) endpoint in
  let endpoint := when buildArgs (fun buildArgs => append "buildargs" (JSON_stringify (json_of_map buildArgs))) endpoint in
  let endpoint := when shmSize (fun shmSize => append "shmsize" (Number_toString shmSize)) endpoint in
  let endpoint := when squash (fun squash => append "squash" (Boolean_toString squash)) endpoint in
  let endpoint := when labels (fun labels => append "labels" (JSON_stringify (json_of_map labels))) endpoint in
  let endpoint := when networkMode (fun networkMode => append "networkmode" networkMode) endpoint in
  let endpoint := when platform (fun platform => append "platform" platform) endpoint in
  let endpoint := when target (fun target => append "target" target) endpoint in
  let endpoint := when outputs (fun outputs => append "outputs" outputs) endpoint in
  endpoint.

Definition build (url : string) (binary : Buffer) (contentType : option string)
    (registryConfig : option RegistryConfig)
    (dockerfile : option string) (tags : option StringArray)
    (extraHosts remote : option string) (quiet noCache : option bool)
    (cacheFrom pull : option string)
    (removeIntermediate forceRemoveIntermediate : option bool)
    (memoryLimit memorySwap cpuShares : option Z) (cpuSetCpus : option string)
    (cpuPeriod cpuQuota : option Z) (buildArgs : option StringMap)
    (shmSize : option Z) (squash : option bool) (labels : option StringMap)
    (networkMode platform target outputs : option string)
    : JS (Promise Value Value) :=
  let* endpoint := URL_new URL_parse (url ++ "/build") in
  let endpoint :=
    build_endpoint dockerfile tags extraHosts remote quiet noCache cacheFrom pull
      removeIntermediate forceRemoveIntermediate memoryLimit memorySwap cpuShares
      cpuSetCpus cpuPeriod cpuQuota buildArgs shmSize squash labels networkMode
      platform target outputs endpoint in
  let* p := axios_post transport (URL_toString endpoint) (BodyString (Buffer_toString binary))
    {| headers :=
         [("Content-Type", HString (nullish contentType "application/x-tar"));
          ("Content-Length", HNumber (byteLength binary));
          ("X-Registry-Config",
            match registryConfig with
            | Some registryConfig =>
                HString (base64 (Buffer_from (JSON_stringify (json_of_registry registryConfig))))
            | None => HUndefined
            end)];
       responseType := json |} in
  ret (catch (then_ p (fun x => data x)) rethrow).

(** The query parameters of [buildPrune]. *)
Definition buildPrune_endpoint (keepStorage : option Z) (all : option bool)
    (filters : option FilterMap) (endpoint : URL) : URL :=
  let endpoint := when keepStorage (fun keepStorage => append "keep-storage" (Number_toString keepStorage)) endpoint in
  let endpoint := when all (fun all => append "all" (Boolean_toString all)) endpoint in
  let endpoint := when filters (fun filters => append "filters" (JSON_stringify (json_of_filters filters))) endpoint in
  endpoint.

Definition buildPrune (url : string) (keepStorage : option Z) (all : option bool)
    (filters : option FilterMap) : JS (Promise Value Value) :=
  let* endpoint := URL_new URL_parse (url ++ "/build/prune") in
  let endpoint := buildPrune_endpoint keepStorage all filters endpoint in
  let* p := axios_post transport (URL_toString endpoint) NoBody default_config in
  ret (catch (then_ p (fun x => data x)) rethrow).

(** The query parameters of [create]; [fromSrc] is always sent. *)
Definition create_endpoint (fromImage fromSrc repo tag message : option string)
    (changes : option StringArray) (platform : option string) (endpoint : URL) : URL :=
  let endpoint := append "fromSrc" (nullish fromSrc "-") endpoint in
  let endpoint := when fromImage (fun fromImage => append "fromImage" fromImage) endpoint in
  let endpoint := when repo (fun repo => append "repo" repo) endpoint in
  let endpoint := when tag (fun tag => append "tag" tag) endpoint in
  let endpoint := when message (fun message => append "message" message) endpoint in
  let endpoint := when changes (fun changes => append "changes" (JSON_stringify (json_of_strings changes))) endpoint in
  let endpoint := when platform (fun platform => append "platform" platform) endpoint in
  endpoint.

(** [authConfig] is a [BasicAuth] or a [TokenAuth] object; the module only
    hands it to [JSON.stringify]. *)
Definition create (url : string) (binary : option Buffer) (authConfig : option Json)
    (fromImage fromSrc repo tag message : option string)
    (changes : option StringArray) (platform : option string)
    : JS (Promise Value Value) :=
  let* endpoint := URL_new URL_parse (url ++ "/images/create") in
  let* _ :=
    if (is_undefined binary && is_undefined fromSrc)
       || (negb (is_undefined binary) && negb (is_undefined fromSrc))
    then throw (Error_ "Create mode is not clear. Use fromSrc or binary")
    else ret tt in
  let endpoint := create_endpoint fromImage fromSrc repo tag message changes platform endpoint in
  let* p := axios_post transport (URL_toString endpoint)
    (match binary with Some binary => BodyBuffer binary | None => NoBody end)
    {| headers :=
         [("X-Registry-Config",
            match authConfig with
            | Some authConfig => HString (base64 (Buffer_from (JSON_stringify authConfig)))
            | None => HUndefined
            end)];
       responseType := json |} in
  ret (catch (then_ p (fun x => data x)) rethrow).

Definition inspect (url name : string) : JS (Promise Value Value) :=
  let* endpoint := URL_new URL_parse (url ++ "/images/" ++ name ++ "/json") in
  let* p := axios_get transport (URL_toString endpoint) default_config in
  ret (catch (then_ p (fun x => data x)) rethrow).
End Operations.
End ImageModule.

(** ** Container operations *)

Module ContainerModule.
Section Operations.
Variable URL_parse : string -> option URL.
Variable transport : Request -> Exchange.

(** The query parameters of [list]. *)
Definition list_endpoint (all : option bool) (limit : option Z) (size : option bool)
    (filters : option FilterMap) (endpoint : URL) : URL :=
  let endpoint := when all (fun all => append "all" (Boolean_toString all)) endpoint in
  let endpoint := when limit (fun limit => append "limit" (Number_toString limit)) endpoint in
  let endpoint := when size (fun size => append "size" (Boolean_toString size)) endpoint in
  let endpoint := when filters (fun filters => append "filters" (JSON_stringify (json_of_filters filters))) endpoint in
  endpoint.

Definition list (url : string) (all : option bool) (limit : option Z) (size : option bool)
    (filters : option FilterMap) : JS (Promise Value Value) :=
  let* endpoint := URL_new URL_parse (url ++ "/containers/json") in
  let endpoint := list_endpoint all limit size filters endpoint in
  let* p := axios_get transport (URL_toString endpoint) default_config in
  ret (catch (then_ p (fun x => data x)) rethrow).

(** The query parameters of [create]. *)
Definition create_endpoint (name platform : option string) (endpoint : URL) : URL :=
  let endpoint := when name (fun name => append "name" name) endpoint in
  let endpoint := when platform (fun platform => append "platform" platform) endpoint in
  endpoint.

(** [ContainerConfig] is an interface, erased at run time: what reaches
    axios is the caller's object. *)
Definition create (url : string) (containerConfig : Json) (name platform : option string)
    : JS (Promise Value Value) :=
  let* endpoint := URL_new URL_parse (url ++ "/containers/create") in
  let endpoint := create_endpoint name platform endpoint in
  let* p := axios_post transport (URL_toString endpoint) (BodyObject containerConfig) default_config in
  ret (catch (then_ p (fun x => data x)) rethrow).

Definition inspect_endpoint (size : option bool) (endpoint : URL) : URL :=
  when size (fun size => append "size" (Boolean_toString size)) endpoint.

Definition inspect (url id : string) (size : option bool) : JS (Promise Value Value) :=
  let* endpoint := URL_new URL_parse (url ++ "/containers/" ++ id ++ "/json") in
  let endpoint := inspect_endpoint size endpoint in
  let* p := axios_get transport (URL_toString endpoint) default_config in
  ret (catch (then_ p (fun x => data x)) rethrow).

Definition top_endpoint (psArgs : option string) (endpoint : URL) : URL :=
  when psArgs (fun psArgs => append "ps_args" psArgs) endpoint.

Definition top (url id : string) (psArgs : option string) : JS (Promise Value Value) :=
  let* endpoint := URL_new URL_parse (url ++ "/containers/" ++ id ++ "/top") in
  let endpoint := top_endpoint psArgs endpoint in
  let* p := axios_get transport (URL_toString endpoint) default_config in
  ret (catch (then_ p (fun x => data x)) rethrow).

(** The query parameters of [logs]. *)
Definition logs_endpoint (follow stdout stderr : option bool) (since until : option Z)
    (timestamps : option bool) (tail : option string) (endpoint : URL) : URL :=
  let endpoint := when follow (fun follow => append "follow" (Boolean_toString follow)) endpoint in
  let endpoint := when stdout (fun stdout => append "stdout" (Boolean_toString stdout)) endpoint in
  let endpoint := when stderr (fun stderr => append "stderr" (Boolean_toString stderr)) endpoint in
  let endpoint := when since (fun since => append "since" (Number_toString since)) endpoint in
  let endpoint := when until (fun until => append "until" (Number_toString until)) endpoint in
  let endpoint := when timestamps (fun timestamps => append "timestamps" (Boolean_toString timestamps)) endpoint in
  let endpoint := when tail (fun tail => append "tail" tail) endpoint in
  endpoint.

Definition logs (url id : string) (follow stdout stderr : option bool) (since until : option Z)
    (timestamps : option bool) (tail : option string) : JS (Promise Value Value) :=
  let* endpoint := URL_new URL_parse (url ++ "/containers/" ++ id ++ "/logs") in
  let endpoint := logs_endpoint follow stdout stderr since until timestamps tail endpoint in
  let* p := axios_get transport (URL_toString endpoint)
    {| headers := []; responseType := stream |} in
  ret (catch (then_ p (fun x => data x)) rethrow).

Definition changes (url id : string) : JS (Promise Value Value) :=
  let* endpoint := URL_new URL_parse (url ++ "/containers/" ++ id ++ "/changes") in
  let* p := axios_get transport (URL_toString endpoint) default_config in
  ret (catch (then_ p (fun x => data x)) rethrow).

Definition backup (url id : string) : JS (Promise Value Value) :=
  let* endpoint := URL_new URL_parse (url ++ "/containers/" ++ id ++ "/export") in
  let* p := axios_get transport (URL_toString endpoint)
    {| headers := []; responseType := stream |} in
  ret (catch (then_ p (fun x => data x)) rethrow).

Definition stats_endpoint (endpoint : URL) : URL :=
  let endpoint := append "stream" "false" endpoint in
  let endpoint := append "one-shot" "true" endpoint in
  endpoint.

Definition stats (url id : string) : JS (Promise Value Value) :=
  let* endpoint := URL_new URL_parse (url ++ "/containers/" ++ id ++ "/stats") in
  let endpoint := stats_endpoint endpoint in
  let* p := axios_get transport (URL_toString endpoint) default_config in
  ret (catch (then_ p (fun x => data x)) rethrow).

Definition start (url id : string) : JS (Promise Value Value) :=
  let* endpoint := URL_new URL_parse (url ++ "/containers/" ++ id ++ "/start") in
  let* p := axios_post transport (URL_toString endpoint) NoBody default_config in
  ret (catch (then_ p (fun x => Undefined)) rethrow).

Definition stop_endpoint (timeout : option Z) (endpoint : URL) : URL :=
  when timeout (fun timeout => append "t" (Number_toString timeout)) endpoint.

Definition stop (url id : string) (timeout : option Z) : JS (Promise Value Value) :=
  let* endpoint := URL_new URL_parse (url ++ "/containers/" ++ id ++ "/stop") in
  let endpoint := stop_endpoint timeout endpoint in
  let* p := axios_post transport (URL_toString endpoint) NoBody default_config in
  ret (catch (then_ p (fun x => Undefined)) rethrow).

Definition restart_endpoint (timeout : option Z) (endpoint : URL) : URL :=
  when timeout (fun timeout => append "t" (Number_toString timeout)) endpoint.

Definition restart (url id : string) (timeout : option Z) : JS (Promise Value Value) :=
  let* endpoint := URL_new URL_parse (url ++ "/containers/" ++ id ++ "/restart") in
  let endpoint := restart_endpoint timeout endpoint in
  let* p := axios_post transport (URL_toString endpoint) NoBody default_config in
  ret (catch (then_ p (fun x => Undefined)) rethrow).

Definition kill_endpoint (signal : option string) (endpoint : URL) : URL :=
  when signal (fun signal => append "signal" signal) endpoint.

Definition kill (url id : string) (signal : option string) : JS (Promise Value Value) :=
  let* endpoint := URL_new URL_parse (url ++ "/containers/" ++ id ++ "/kill") in
  let endpoint := kill_endpoint signal endpoint in
  let* p := axios_post transport (URL_toString endpoint) NoBody default_config in
  ret (catch (then_ p (fun x => Undefined)) rethrow).

(** [ContainerUpdate] is an interface as well. *)
Definition update (url id : string) (config : Json) : JS (Promise Value Value) :=
  let* endpoint := URL_new URL_parse (url ++ "/containers/" ++ id ++ "/update") in
  let* p := axios_post transport (URL_toString endpoint) (BodyObject config) default_config in
  ret (catch (then_ p (fun x => data x)) rethrow).

Definition rename_endpoint (name : string) (endpoint : URL) : URL :=
  append "name" name endpoint.

Definition rename (url id name : string) : JS (Promise Value Value) :=
  let* endpoint := URL_new URL_parse (url ++ "/containers/" ++ id ++ "/rename") in
  let endpoint := rename_endpoint name endpoint in
  let* p := axios_post transport (URL_toString endpoint) NoBody default_config in
  ret (catch (then_ p (fun x => Undefined)) rethrow).

Definition pause (url id : string) : JS (Promise Value Value) :=
  let* endpoint := URL_new URL_parse (url ++ "/containers/" ++ id ++ "/pause") in
  let* p := axios_post transport (URL_toString endpoint) NoBody default_config in
  ret (catch (then_ p (fun x => Undefined)) rethrow).

Definition prune (url : string) : JS (Promise Value Value) :=
  let* endpoint := URL_new URL_parse (url ++ "/containers/prune") in
  let* p := axios_post transport (URL_toString endpoint) NoBody default_config in
  ret (catch (then_ p (fun x => Undefined)) rethrow).
End Operations.
End ContainerModule.

(** ** Calls

    One constructor per exported function, carrying its arguments, so that a
    statement can range over every operation of both modules. *)

Inductive Call : Type :=
| ImageList (url : string) (all : option bool) (filters : option FilterMap)
    (sharedSize digests : option bool)
| ImageBuild (url : string) (binary : Buffer) (contentType : option string)
    (registryConfig : option RegistryConfig)
    (dockerfile : option string) (tags : option StringArray)
    (extraHosts remote : option string) (quiet noCache : option bool)
    (cacheFrom pull : option string)
    (removeIntermediate forceRemoveIntermediate : option bool)
    (memoryLimit memorySwap cpuShares : option Z) (cpuSetCpus : option string)
    (cpuPeriod cpuQuota : option Z) (buildArgs : option StringMap)
    (shmSize : option Z) (squash : option bool) (labels : option StringMap)
    (networkMode platform target outputs : option string)
| ImageBuildPrune (url : string) (keepStorage : option Z) (all : option bool)
    (filters : option FilterMap)
| ImageCreate (url : string) (binary : option Buffer) (authConfig : option Json)
    (fromImage fromSrc repo tag message : option string)
    (changes : option StringArray) (platform : option string)
| ImageInspect (url name : string)
| ContainerList (url : string) (all : option bool) (limit : option Z)
    (size : option bool) (filters : option FilterMap)
| ContainerCreate (url : string) (containerConfig : Json) (name platform : option string)
| ContainerInspect (url id : string) (size : option bool)
| ContainerTop (url id : string) (psArgs : option string)
| ContainerLogs (url id : string) (follow stdout stderr : option bool)
    (since until : option Z) (timestamps : option bool) (tail : option string)
| ContainerChanges (url id : string)
| ContainerBackup (url id : string)
| ContainerStats (url id : string)
| ContainerStart (url id : string)
| ContainerStop (url id : string) (timeout : option Z)
| ContainerRestart (url id : string) (timeout : option Z)
| ContainerKill (url id : string) (signal : option string)
| ContainerUpdate (url id : string) (config : Json)
| ContainerRename (url id name : string)
| ContainerPause (url id : string)
| ContainerPrune (url : string).

Definition invoke (URL_parse : string -> option URL) (transport : Request -> Exchange)
    (c : Call) : JS (Promise Value Value) :=
  match c with
  | ImageList url all filters sharedSize digests =>
      ImageModule.list URL_parse transport url all filters sharedSize digests
  | ImageBuild url binary contentType registryConfig dockerfile tags extraHosts remote quiet noCache cacheFrom pull removeIntermediate forceRemoveIntermediate memoryLimit memorySwap cpuShares cpuSetCpus cpuPeriod cpuQuota buildArgs shmSize squash labels networkMode platform target outputs =>
      ImageModule.build URL_parse transport url binary contentType registryConfig
        dockerfile tags extraHosts remote quiet noCache cacheFrom pull removeIntermediate forceRemoveIntermediate memoryLimit memorySwap cpuShares cpuSetCpus cpuPeriod cpuQuota buildArgs shmSize squash labels networkMode platform target outputs
  | ImageBuildPrune url keepStorage all filters =>
      ImageModule.buildPrune URL_parse transport url keepStorage all filters
  | ImageCreate url binary authConfig fromImage fromSrc repo tag message changes platform =>
      ImageModule.create URL_parse transport url binary authConfig fromImage fromSrc repo
        tag message changes platform
  | ImageInspect url name => ImageModule.inspect URL_parse transport url name
  | ContainerList url all limit size filters =>
      ContainerModule.list URL_parse transport url all limit size filters
  | ContainerCreate url containerConfig name platform =>
      ContainerModule.create URL_parse transport url containerConfig name platform
  | ContainerInspect url id size => ContainerModule.inspect URL_parse transport url id size
  | ContainerTop url id psArgs => ContainerModule.top URL_parse transport url id psArgs
  | ContainerLogs url id follow stdout stderr since until timestamps tail =>
      ContainerModule.logs URL_parse transport url id follow stdout stderr since until
        timestamps tail
  | ContainerChanges url id => ContainerModule.changes URL_parse transport url id
  | ContainerBackup url id => ContainerModule.backup URL_parse transport url id
  | ContainerStats url id => ContainerModule.stats URL_parse transport url id
  | ContainerStart url id => ContainerModule.start URL_parse transport url id
  | ContainerStop url id timeout => ContainerModule.stop URL_parse transport url id timeout
  | ContainerRestart url id timeout =>
      ContainerModule.restart URL_parse transport url id timeout
  | ContainerKill url id signal => ContainerModule.kill URL_parse transport url id signal
  | ContainerUpdate url id config => ContainerModule.update URL_parse transport url id config
  | ContainerRename url id name => ContainerModule.rename URL_parse transport url id name
  | ContainerPause url id => ContainerModule.pause URL_parse transport url id
  | ContainerPrune url => ContainerModule.prune URL_parse transport url
  end.

(** The string a call hands to [new URL]. *)
Definition target_of (c : Call) : string :=
  match c with
  | ImageList url _ _ _ _ => url ++ "/images/json"
  | ImageBuild url _ _ _ _ _ _ _ _ _ _ _ _ _ _ _ _ _ _ _ _ _ _ _ _ _ _ _ => url ++ "/build"
  | ImageBuildPrune url _ _ _ => url ++ "/build/prune"
  | ImageCreate url _ _ _ _ _ _ _ _ _ => url ++ "/images/create"
  | ImageInspect url name => url ++ "/images/" ++ name ++ "/json"
  | ContainerList url _ _ _ _ => url ++ "/containers/json"
  | ContainerCreate url _ _ _ => url ++ "/containers/create"
  | ContainerInspect url id _ => url ++ "/containers/" ++ id ++ "/json"
  | ContainerTop url id _ => url ++ "/containers/" ++ id ++ "/top"
  | ContainerLogs url id _ _ _ _ _ _ _ => url ++ "/containers/" ++ id ++ "/logs"
  | ContainerChanges url id => url ++ "/containers/" ++ id ++ "/changes"
  | ContainerBackup url id => url ++ "/containers/" ++ id ++ "/export"
  | ContainerStats url id => url ++ "/containers/" ++ id ++ "/stats"
  | ContainerStart url id => url ++ "/containers/" ++ id ++ "/start"
  | ContainerStop url id _ => url ++ "/containers/" ++ id ++ "/stop"
  | ContainerRestart url id _ => url ++ "/containers/" ++ id ++ "/restart"
  | ContainerKill url id _ => url ++ "/containers/" ++ id ++ "/kill"
  | ContainerUpdate url id _ => url ++ "/containers/" ++ id ++ "/update"
  | ContainerRename url id _ => url ++ "/containers/" ++ id ++ "/rename"
  | ContainerPause url id => url ++ "/containers/" ++ id ++ "/pause"
  | ContainerPrune url => url ++ "/containers/prune"
  end.

(** What a call does to the [endpoint] it constructed before the request is
    sent. *)
Definition endpoint_of (c : Call) (endpoint : URL) : URL :=
  match c with
  | ImageList _ all filters sharedSize digests =>
      ImageModule.list_endpoint all filters sharedSize digests endpoint
  | ImageBuild _ _ _ _ dockerfile tags extraHosts remote quiet noCache cacheFrom pull removeIntermediate forceRemoveIntermediate memoryLimit memorySwap cpuShares cpuSetCpus cpuPeriod cpuQuota buildArgs shmSize squash labels networkMode platform target outputs =>
      ImageModule.build_endpoint dockerfile tags extraHosts remote quiet noCache cacheFrom pull removeIntermediate forceRemoveIntermediate memoryLimit memorySwap cpuShares cpuSetCpus cpuPeriod cpuQuota buildArgs shmSize squash labels networkMode platform target outputs endpoint
  | ImageBuildPrune _ keepStorage all filters =>
      ImageModule.buildPrune_endpoint keepStorage all filters endpoint
  | ImageCreate _ _ _ fromImage fromSrc repo tag message changes platform =>
      ImageModule.create_endpoint fromImage fromSrc repo tag message changes platform endpoint
  | ContainerList _ all limit size filters =>
      ContainerModule.list_endpoint all limit size filters endpoint
  | ContainerCreate _ _ name platform => ContainerModule.create_endpoint name platform endpoint
  | ContainerInspect _ _ size => ContainerModule.inspect_endpoint size endpoint
  | ContainerTop _ _ psArgs => ContainerModule.top_endpoint psArgs endpoint
  | ContainerLogs _ _ follow stdout stderr since until timestamps tail =>
      ContainerModule.logs_endpoint follow stdout stderr since until timestamps tail endpoint
  | ContainerStats _ _ => ContainerModule.stats_endpoint endpoint
  | ContainerStop _ _ timeout => ContainerModule.stop_endpoint timeout endpoint
  | ContainerRestart _ _ timeout => ContainerModule.restart_endpoint timeout endpoint
  | ContainerKill _ _ signal => ContainerModule.kill_endpoint signal endpoint
  | ContainerRename _ _ name => ContainerModule.rename_endpoint name endpoint
  | ImageInspect _ _ | ContainerChanges _ _ | ContainerBackup _ _ | ContainerStart _ _
  | ContainerUpdate _ _ _ | ContainerPause _ _ | ContainerPrune _ => endpoint
  end.

Definition responseType_of (c : Call) : ResponseType :=
  match c with
  | ContainerLogs _ _ _ _ _ _ _ _ _ | ContainerBackup _ _ => stream
  | _ => json
  end.

(** The state and action operations. *)
Definition is_action (c : Call) : bool :=
  match c with
  | ContainerStart _ _ | ContainerStop _ _ _ | ContainerRestart _ _ _
  | ContainerKill _ _ _ | ContainerPause _ _ | ContainerRename _ _ _ => true
  | _ => false
  end.

(** The operations whose [then] callback returns [undefined]. *)
Definition discards (c : Call) : bool :=
  is_action c || match c with ContainerPrune _ => true | _ => false end.

(** ** Optional arguments and their query parameters *)

(** An optional argument by the way it is serialised. *)
Inductive Arg : Type :=
| ABoolean (x : option bool)
| ANumber (x : option Z)
| AString (x : option string)
| AStrings (x : option StringArray)   (* one JSON array *)
| AMap (x : option StringMap)
| AFilters (x : option FilterMap)
| AEach (x : option StringArray).     (* one parameter per element *)

(** The argument was given a truthy value. *)
Definition supplied (a : Arg) : bool :=
  match a with
  | ABoolean x => truthy x
  | ANumber x => truthy x
  | AString x => truthy x
  | AStrings x => truthy x
  | AMap x => truthy x
  | AFilters x => truthy x
  | AEach x => truthy x
  end.

(** The values a supplied argument is sent as: booleans and numbers through
    [toString], strings as they are, arrays and maps as compact JSON. *)
Definition serialized (a : Arg) : list string :=
  match a with
  | ABoolean (Some b) => [Boolean_toString b]
  | ANumber (Some n) => [Number_toString n]
  | AString (Some s) => [s]
  | AStrings (Some l) => [JSON_stringify (json_of_strings l)]
  | AMap (Some m) => [JSON_stringify (json_of_map m)]
  | AFilters (Some m) => [JSON_stringify (json_of_filters m)]
  | AEach (Some l) => l
  | _ => []
  end.

(** The optional arguments of a call that have a query parameter, each under
    the key of that parameter. *)
Definition optional_args (c : Call) : list (string * Arg) :=
  match c with
  | ImageList _ all filters sharedSize digests =>
      [("all", ABoolean all); ("filters", AFilters filters);
       ("sharedSize", ABoolean sharedSize); ("digests", ABoolean digests)]
  | ImageBuild _ _ _ _ dockerfile tags extraHosts remote quiet noCache cacheFrom pull removeIntermediate forceRemoveIntermediate memoryLimit memorySwap cpuShares cpuSetCpus cpuPeriod cpuQuota buildArgs shmSize squash labels networkMode platform target outputs =>
      [("dockerfile", AString dockerfile); ("t", AEach tags);
       ("extrahosts", AString extraHosts); ("remote", AString remote);
       ("q", ABoolean quiet); ("nocache", ABoolean noCache);
       ("cachefrom", AString cacheFrom); ("pull", AString pull);
       ("rm", ABoolean removeIntermediate); ("forcerm", ABoolean forceRemoveIntermediate);
       ("memory", ANumber memoryLimit); ("memswap", ANumber memorySwap);
       ("cpushares", ANumber cpuShares); ("cpusetcpus", AString cpuSetCpus);
       ("cpuperiod", ANumber cpuPeriod); ("cpuquota", ANumber cpuQuota);
       ("buildargs", AMap buildArgs); ("shmsize", ANumber shmSize);
       ("squash", ABoolean squash); ("labels", AMap labels);
       ("networkmode", AString networkMode); ("platform", AString platform);
       ("target", AString target); ("outputs", AString outputs)]
  | ImageBuildPrune _ keepStorage all filters =>
      [("keep-storage", ANumber keepStorage); ("all", ABoolean all);
       ("filters", AFilters filters)]
  | ImageCreate _ _ _ fromImage fromSrc repo tag message changes platform =>
      [("fromSrc", AString fromSrc); ("fromImage", AString fromImage);
       ("repo", AString repo); ("tag", AString tag); ("message", AString message);
       ("changes", AStrings changes); ("platform", AString platform)]
  | ContainerList _ all limit size filters =>
      [("all", ABoolean all); ("limit", ANumber limit); ("size", ABoolean size);
       ("filters", AFilters filters)]
  | ContainerCreate _ _ name platform =>
      [("name", AString name); ("platform", AString platform)]
  | ContainerInspect _ _ size => [("size", ABoolean size)]
  | ContainerTop _ _ psArgs => [("ps_args", AString psArgs)]
  | ContainerLogs _ _ follow stdout stderr since until timestamps tail =>
      [("follow", ABoolean follow); ("stdout", ABoolean stdout); ("stderr", ABoolean stderr);
       ("since", ANumber since); ("until", ANumber until);
       ("timestamps", ABoolean timestamps); ("tail", AString tail)]
  | ContainerStop _ _ timeout => [("t", ANumber timeout)]
  | ContainerRestart _ _ timeout => [("t", ANumber timeout)]
  | ContainerKill _ _ signal => [("signal", AString signal)]
  | _ => []
  end.

(** ** A fragment of the URL parser, for closed examples

    Strings of the form [http://host:port/path] with a host of lower-case
    letters, a port of four digits that does not start with 0, and a
    non-empty path of lower-case letters, digits and [/]. The parser has
    nothing to normalise in such a string and returns it as it is, without
    query and fragment. The fragment gives no answer on any other string. *)

Definition is_lower (c : ascii) : bool :=
  let n := N_of_ascii c in ((97 <=? n) && (n <=? 122))%N.

Definition is_digit (c : ascii) : bool :=
  let n := N_of_ascii c in ((48 <=? n) && (n <=? 57))%N.

Fixpoint all_chars (p : ascii -> bool) (s : string) : bool :=
  match s with
  | EmptyString => true
  | String c s' => p c && all_chars p s'
  end.

(** Splits [s] at the first character that fails [p]. *)
Fixpoint span (p : ascii -> bool) (s : string) : string * string :=
  match s with
  | EmptyString => ("", "")
  | String c s' =>
      if p c then let r := span p s' in (String c (fst r), snd r)
      else ("", s)
  end.

Definition plain_authority_path (s : string) : bool :=
  let h := span is_lower s in
  match fst h, snd h with
  | String _ _, String ":" (String d1 (String d2 (String d3 (String d4 (String "/" path))))) =>
      is_digit d1 && negb (Ascii.eqb d1 "0") && is_digit d2 && is_digit d3 && is_digit d4
      && all_chars (fun c => is_lower c || is_digit c || Ascii.eqb c "/") path
  | _, _ => false
  end.

Definition plain_URL (s : string) : option URL :=
  match s with
  | String "h" (String "t" (String "t" (String "p" (String ":" (String "/" (String "/" rest)))))) =>
      if plain_authority_path rest
      then Some {| href_base := s; query := None; searchParams := []; hash := None |}
      else None
  | _ => None
  end.

(** A daemon that answers every request with the same status and body, and a
    network on which no request gets an answer. *)
Definition answering (st : Z) (p : Payload) : Request -> Exchange :=
  fun _ => Responded st p.

Definition unreachable : Request -> Exchange :=
  fun _ => Failed "ECONNREFUSED".


(** The parameters an argument contributes under its key. *)
Definition sends (ka : string * Arg) : Params :=
  map (pair (fst ka)) (if supplied (snd ka) then serialized (snd ka) else []).

(** The parameters a call appends whatever its optional arguments are. *)
Definition forced (c : Call) : Params :=
  match c with
  | ImageCreate _ _ _ _ fromSrc _ _ _ _ _ => [("fromSrc", nullish fromSrc "-")]
  | ContainerStats _ _ => [("stream", "false"); ("one-shot", "true")]
  | ContainerRename _ _ name => [("name", name)]
  | _ => []
  end.

(** The optional arguments behind an [if (x)] test: all but [fromSrc]. *)
Definition guarded (c : Call) : list (string * Arg) :=
  filter (fun ka => negb (String.eqb (fst ka) "fromSrc")) (optional_args c).

Fixpoint distinct (l : list string) : bool :=
  match l with
  | [] => true
  | x :: rest => negb (existsb (String.eqb x) rest) && distinct rest
  end.

(** A URL as the parser leaves it when the string has no query and no
    fragment and needs no normalisation. *)
Definition verbatim (s : string) : URL :=
  {| href_base := s; query := None; searchParams := []; hash := None |}.

(** [e] is [u] after zero or more appends: same base and fragment, and a
    query that is either untouched or the serialised parameter list. *)
Definition extends (u e : URL) : Prop :=
  href_base e = href_base u
  /\ hash e = hash u
  /\ (e = u \/ query e = Some (form_serialize (searchParams e))).

(** Example data. *)
Definition daemon_url : string := "http://localhost:2375".

Definition no_such_container : Json :=
  JObj [("message", JStr "no such container")].

Definition build_progress : Json :=
  JObj [("stream", JStr "Successfully built 0123456789ab")].

Definition prune_report : Json :=
  JObj [("ContainersDeleted", JArr [JStr "abc123"]); ("SpaceReclaimed", JNum 109)].

Definition logs_call : Call :=
  ContainerLogs daemon_url "abc123" None None None None None None None.

Definition logs_request : Request :=
  {| method := GET;
     request_url := "http://localhost:2375/containers/abc123/logs";
     body := NoBody;
     config := {| headers := []; responseType := stream |} |}.

Definition list_call : Call :=
  ContainerList daemon_url (Some false) (Some 5) None None.

Definition list_request : Request :=
  {| method := GET;
     request_url := "http://localhost:2375/containers/json?limit=5";
     body := NoBody;
     config := default_config |}.

Definition import_call : Call :=
  ImageCreate daemon_url (Some []) None None None None None None None None.

Definition post_request (u : string) : Request :=
  {| method := POST; request_url := u; body := NoBody; config := default_config |}.

Definition plain_list_call : Call := ContainerList daemon_url None (Some 0) (Some false) None.

Definition empty_filters_call : Call := ContainerList daemon_url None None None (Some []).

(** The bytes of [FROM scratch]. *)
Definition dockerfile_text : Buffer := Buffer_from "FROM scratch".

(** ** Shapes of calls and requests, for statements over every operation *)

(** [ImageModule.create] called with both [binary] and [fromSrc], or with
    neither. *)
Definition mode_unclear (c : Call) : bool :=
  match c with
  | ImageCreate _ binary _ _ fromSrc _ _ _ _ _ =>
      (is_undefined binary && is_undefined fromSrc)
      || (negb (is_undefined binary) && negb (is_undefined fromSrc))
  | _ => false
  end.

(** The operations that read ([axios.get]); all others post. *)
Definition reads (c : Call) : bool :=
  match c with
  | ImageList _ _ _ _ _ | ImageInspect _ _ | ContainerList _ _ _ _ _
  | ContainerInspect _ _ _ | ContainerTop _ _ _ | ContainerLogs _ _ _ _ _ _ _ _ _
  | ContainerChanges _ _ | ContainerBackup _ _ | ContainerStats _ _ => true
  | _ => false
  end.

(** The operations that hand a second argument to [axios.post]. *)
Definition carries_body (c : Call) : bool :=
  match c with
  | ImageBuild _ _ _ _ _ _ _ _ _ _ _ _ _ _ _ _ _ _ _ _ _ _ _ _ _ _ _ _ | ImageCreate _ _ _ _ _ _ _ _ _ _
  | ContainerCreate _ _ _ _ | ContainerUpdate _ _ _ => true
  | _ => false
  end.

(** The operations that set request headers. *)
Definition sets_headers (c : Call) : bool :=
  match c with
  | ImageBuild _ _ _ _ _ _ _ _ _ _ _ _ _ _ _ _ _ _ _ _ _ _ _ _ _ _ _ _ | ImageCreate _ _ _ _ _ _ _ _ _ _ => true
  | _ => false
  end.

(** Every byte is below 0x80. *)
Definition is_ascii (b : Buffer) : bool :=
  forallb (fun x => (byte_code x <=? 127)%N) b.

(** The number of times a character occurs in a string. *)
Fixpoint occurrences (ch : ascii) (s : string) : nat :=
  match s with
  | EmptyString => O
  | String c s' => ((if Ascii.eqb c ch then 1 else 0) + occurrences ch s')%nat
  end.

(** A state the UTF-8 decoder can be in: an open sequence holds at least
    one and at most three bytes. *)
Definition utf8_state_ok (st : Utf8State) : Prop :=
  needed st = O
  \/ (1 <= length (pending st) <= 3 /\ length (pending st) + needed st <= 4)%nat.

(** The bytes read into the open sequence, not yet written out. *)
Definition owed (st : Utf8State) : nat :=
  match needed st with O => O | S _ => length (pending st) end.

(** The header named [name] of a request, if the request sets it. *)
Definition header (name : string) (r : Request) : option HeaderValue :=
  match find (fun kv => String.eqb (fst kv) name) (headers (config r)) with
  | Some kv => Some (snd kv)
  | None => None
  end.

(** [hay.indexOf(needle) > -1] *)
Fixpoint includes (needle hay : string) : bool :=
  String.prefix needle hay
  || match hay with
     | EmptyString => false
     | String _ rest => includes needle rest
     end.

(** axios treats a request as JSON when its [Content-Type] mentions
    [application/json]. *)
Definition has_json_content_type (r : Request) : bool :=
  match header "Content-Type" r with
  | Some (HString t) => includes "application/json" t
  | _ => false
  end.

(** The bytes axios sends for the body of a request. A string body under a
    JSON [Content-Type] first goes through axios's [stringifySafely] (the
    text trimmed when it parses as JSON, quoted otherwise), a parameter
    here. *)
Definition request_bytes (stringifySafely : string -> string) (r : Request) : Buffer :=
  match body r with
  | BodyString s =>
      Buffer_from (if has_json_content_type r then stringifySafely s else s)
  | b => wire b
  end.

(** A string that UTF-8 decoding leaves as it is. *)
Definition well_formed_text (s : string) : bool :=
  String.eqb (Buffer_toString (Buffer_from s)) s.

(** A key made of digits only. JavaScript lists the keys of an object that
    are array indices first, in numeric order, whatever the order they came
    in; every such key is made of digits. *)
Definition is_index_like (k : string) : bool :=
  match k with
  | EmptyString => false
  | String _ _ => all_chars is_digit k
  end.

(** A JSON document that [JSON.parse] gives back as it is on the wire: its
    numbers are safe integers, its strings well-formed, and the keys of each
    object distinct and not made of digits, so that they keep their order. *)
Fixpoint safe_json (j : Json) : bool :=
  match j with
  | JNull | JBool _ => true
  | JNum n => Number_isSafeInteger n
  | JStr s => well_formed_text s
  | JArr items => forallb safe_json items
  | JObj fields =>
      distinct (map fst fields)
      && forallb (fun kv => well_formed_text (fst kv) && negb (is_index_like (fst kv))
                            && safe_json (snd kv)) fields
  end.


(** * Properties *)

(** ** The platform on small inputs *)

Example Number_toString_5 : Number_toString 5 = "5".
Proof. reflexivity. Qed.

Example Number_toString_negative : Number_toString (-120) = "-120".
Proof. reflexivity. Qed.

Example JSON_stringify_filters :
  form_encode (JSON_stringify (json_of_filters [("status", ["running"])]))
  = "%7B%22status%22%3A%5B%22running%22%5D%7D".
Proof. reflexivity. Qed.

Example JSON_stringify_escapes :
  JSON_stringify (JStr (String (ascii_of_N 10) "a\b"))
  = String dquote ("\n" ++ "a\\b" ++ String dquote "").
Proof. reflexivity. Qed.

Example form_encode_space_and_reserved : form_encode "a b&c=d/e*f-g.h_i~" = "a+b%26c%3Dd%2Fe*f-g.h_i%7E".
Proof. reflexivity. Qed.

Example base64_padding :
  base64 (Buffer_from "light work.") = "bGlnaHQgd29yay4="
  /\ base64 (Buffer_from "light work") = "bGlnaHQgd29yaw=="
  /\ base64 (Buffer_from "light wor") = "bGlnaHQgd29y".
Proof. repeat split. Qed.

(** Well-formed UTF-8 is kept (here A, the euro sign and U+1F600); a
    truncated sequence, a stray continuation byte and an encoded surrogate
    are replaced. *)
Example Buffer_toString_well_formed :
  Buffer_toString [x41; xe2; x82; xac; xf0; x9f; x98; x80]
  = string_of_list_byte [x41; xe2; x82; xac; xf0; x9f; x98; x80].
Proof. reflexivity. Qed.

Example Buffer_toString_ill_formed :
  Buffer_toString [xe2; x82; x41; x80; xed; xa0; x80]
  = string_of_list_byte
      (replacement ++ [x41] ++ replacement ++ replacement ++ replacement ++ replacement)%list.
Proof. reflexivity. Qed.

Example plain_URL_accepts :
  plain_URL "http://localhost:2375/containers/json"
  = Some (verbatim "http://localhost:2375/containers/json").
Proof. reflexivity. Qed.

Example plain_URL_silent :
  plain_URL "http://localhost:2375/containers/json?all=true" = None
  /\ plain_URL "http://localhost:80/x" = None.
Proof. split; reflexivity. Qed.

(** ** Strings and search parameters *)

Lemma string_app_nil_r (s : string) : s ++ "" = s.
Proof. induction s; simpl; congruence. Qed.

Lemma string_app_assoc (a b c : string) : (a ++ b) ++ c = a ++ b ++ c.
Proof. induction a; simpl; congruence. Qed.

Lemma string_app_nonempty (a b : string) : b <> "" -> a ++ b <> "".
Proof. destruct a; simpl; [auto | discriminate]. Qed.

Lemma join_snoc (sep : string) (l : list string) (x : string) :
  join sep (l ++ [x])%list =
  match l with [] => x | _ => join sep l ++ sep ++ x end.
Proof.
  induction l as [|a l IH]; [reflexivity|].
  destruct l as [|b l]; [reflexivity|].
  change (join sep ((a :: b :: l) ++ [x])%list)
    with (a ++ sep ++ join sep ((b :: l) ++ [x])%list).
  rewrite IH.
  change (join sep (a :: b :: l)) with (a ++ sep ++ join sep (b :: l)).
  now rewrite !string_app_assoc.
Qed.

Lemma form_pair_nonempty (kv : string * string) : form_pair kv <> "".
Proof. unfold form_pair. apply string_app_nonempty. discriminate. Qed.

Lemma form_serialize_snoc (l : Params) (kv : string * string) :
  form_serialize (l ++ [kv])%list =
  match l with
  | [] => form_pair kv
  | _ => form_serialize l ++ "&" ++ form_pair kv
  end.
Proof.
  unfold form_serialize. rewrite map_app. simpl map at 2.
  rewrite join_snoc. now destruct l.
Qed.

Lemma form_serialize_snoc_nonempty (l : Params) (kv : string * string) :
  form_serialize (l ++ [kv])%list <> "".
Proof.
  rewrite form_serialize_snoc. destruct l.
  - apply form_pair_nonempty.
  - apply string_app_nonempty, string_app_nonempty, form_pair_nonempty.
Qed.

(** After an append the query is the serialised list. *)
Lemma query_append (k v : string) (u : URL) :
  query (append k v u) = Some (form_serialize (searchParams u ++ [(k, v)])%list).
Proof.
  unfold append. cbn [query].
  pose proof (form_serialize_snoc_nonempty (searchParams u) (k, v)) as H.
  destruct (form_serialize (searchParams u ++ [(k, v)])%list); congruence.
Qed.

Lemma searchParams_append (k v : string) (u : URL) :
  searchParams (append k v u) = (searchParams u ++ [(k, v)])%list.
Proof. reflexivity. Qed.

Lemma getAll_app (k : string) (l1 l2 : Params) :
  getAll k (l1 ++ l2)%list = (getAll k l1 ++ getAll k l2)%list.
Proof. unfold getAll. now rewrite filter_app, map_app. Qed.

Lemma getAll_pairs (k k' : string) (vs : list string) :
  getAll k (map (pair k') vs) = if String.eqb k' k then vs else [].
Proof.
  unfold getAll. induction vs as [|v vs IH]; cbn [map filter fst].
  - now destruct (String.eqb k' k).
  - destruct (String.eqb k' k) eqn:E; cbn [map snd]; [now rewrite IH | exact IH].
Qed.

Lemma getAll_sends (k : string) (ka : string * Arg) :
  getAll k (sends ka) =
  if String.eqb (fst ka) k then (if supplied (snd ka) then serialized (snd ka) else [])
  else [].
Proof. unfold sends. apply getAll_pairs. Qed.

Lemma existsb_eqb_In (x : string) (l : list string) :
  existsb (String.eqb x) l = false -> ~ In x l.
Proof.
  induction l as [|y l IH]; cbn; [tauto|].
  intros H [E|HIn]; apply orb_false_iff in H as [H1 H2].
  - subst. now rewrite String.eqb_refl in H1.
  - now apply IH.
Qed.

(** In a table with distinct keys, the values found under a key are those of
    the argument listed under it. *)
Lemma getAll_table (T : list (string * Arg)) (k : string) (a : Arg) :
  distinct (map fst T) = true -> In (k, a) T ->
  getAll k (flat_map sends T) = if supplied a then serialized a else [].
Proof.
  induction T as [|[k' a'] T IH]; [contradiction|].
  cbn [map fst distinct flat_map]. intros D HIn.
  apply andb_true_iff in D as [D1 D2]. apply negb_true_iff in D1.
  rewrite getAll_app, getAll_sends. cbn [fst snd].
  destruct HIn as [E|HIn].
  - inversion E; subst. rewrite String.eqb_refl.
    assert (getAll k (flat_map sends T) = []) as ->; [|apply app_nil_r].
    apply existsb_eqb_In in D1. clear IH D2.
    induction T as [|[k2 a2] T IH]; [reflexivity|].
    cbn [flat_map]. rewrite getAll_app, getAll_sends. cbn [fst].
    destruct (String.eqb k2 k) eqn:E2.
    + apply String.eqb_eq in E2. subst. exfalso. apply D1. now left.
    + apply IH. intros H. apply D1. now right.
  - destruct (String.eqb k' k) eqn:E.
    + apply String.eqb_eq in E. subst. apply existsb_eqb_In in D1.
      exfalso. apply D1. apply (in_map fst) in HIn. exact HIn.
    + now apply IH.
Qed.

(** ** What each [if (x) append] adds *)

Lemma when_boolean (k : string) (x : option bool) (u : URL) :
  searchParams (when x (fun a => append k (Boolean_toString a)) u) =
  (searchParams u ++ sends (k, ABoolean x))%list.
Proof.
  unfold when, sends; cbn. destruct x as [[|]|]; cbn; now rewrite ?app_nil_r.
Qed.

Lemma when_number (k : string) (x : option Z) (u : URL) :
  searchParams (when x (fun a => append k (Number_toString a)) u) =
  (searchParams u ++ sends (k, ANumber x))%list.
Proof.
  unfold when, sends; cbn. destruct x as [n|]; cbn; [|now rewrite app_nil_r].
  destruct (truthy n); cbn; now rewrite ?app_nil_r.
Qed.

Lemma when_string (k : string) (x : option string) (u : URL) :
  searchParams (when x (fun a => append k a) u) =
  (searchParams u ++ sends (k, AString x))%list.
Proof.
  unfold when, sends; cbn. destruct x as [[|c s]|]; cbn; now rewrite ?app_nil_r.
Qed.

Lemma when_strings (k : string) (x : option StringArray) (u : URL) :
  searchParams (when x (fun a => append k (JSON_stringify (json_of_strings a))) u) =
  (searchParams u ++ sends (k, AStrings x))%list.
Proof.
  unfold when, sends; cbn. destruct x; cbn; now rewrite ?app_nil_r.
Qed.

Lemma when_map (k : string) (x : option StringMap) (u : URL) :
  searchParams (when x (fun a => append k (JSON_stringify (json_of_map a))) u) =
  (searchParams u ++ sends (k, AMap x))%list.
Proof.
  unfold when, sends; cbn. destruct x; cbn; now rewrite ?app_nil_r.
Qed.

Lemma when_filters (k : string) (x : option FilterMap) (u : URL) :
  searchParams (when x (fun a => append k (JSON_stringify (json_of_filters a))) u) =
  (searchParams u ++ sends (k, AFilters x))%list.
Proof.
  unfold when, sends; cbn. destruct x; cbn; now rewrite ?app_nil_r.
Qed.

Lemma forEach_append (k : string) (l : StringArray) (u : URL) :
  searchParams (fold_left (fun endpoint x => append k x endpoint) l u) =
  (searchParams u ++ map (pair k) l)%list.
Proof.
  revert u. induction l as [|x l IH]; intros u; cbn [fold_left map].
  - now rewrite app_nil_r.
  - rewrite IH, searchParams_append, <- app_assoc. reflexivity.
Qed.

Lemma when_each (k : string) (x : option StringArray) (u : URL) :
  searchParams
    (when x (fun a endpoint => fold_left (fun endpoint x => append k x endpoint) a endpoint) u) =
  (searchParams u ++ sends (k, AEach x))%list.
Proof.
  unfold when, sends; cbn. destruct x as [l|]; cbn; [|now rewrite app_nil_r].
  apply forEach_append.
Qed.

(** The search parameters of the endpoint of a call: those of the parsed
    URL, then the forced ones, then one group per guarded argument. *)
Lemma endpoint_of_params (c : Call) (u : URL) :
  searchParams (endpoint_of c u) =
  (searchParams u ++ forced c ++ flat_map sends (guarded c))%list.
Proof.
  destruct c; cbn [endpoint_of forced guarded optional_args filter fst String.eqb Ascii.eqb Bool.eqb negb flat_map];
    unfold ImageModule.list_endpoint, ImageModule.build_endpoint,
      ImageModule.buildPrune_endpoint, ImageModule.create_endpoint,
      ContainerModule.list_endpoint, ContainerModule.create_endpoint,
      ContainerModule.inspect_endpoint, ContainerModule.top_endpoint,
      ContainerModule.logs_endpoint, ContainerModule.stats_endpoint,
      ContainerModule.stop_endpoint, ContainerModule.restart_endpoint,
      ContainerModule.kill_endpoint, ContainerModule.rename_endpoint;
    cbv zeta;
    repeat first [ rewrite when_boolean | rewrite when_number | rewrite when_string
                 | rewrite when_strings | rewrite when_map | rewrite when_filters
                 | rewrite when_each | rewrite searchParams_append ];
    rewrite <- ?app_assoc; cbn [app]; rewrite ?app_nil_r; reflexivity.
Qed.

(** ** Running a call *)

Ltac unfold_operations :=
  unfold run, invoke,
    ImageModule.list, ImageModule.build, ImageModule.buildPrune, ImageModule.create,
    ImageModule.inspect,
    ContainerModule.list, ContainerModule.create, ContainerModule.inspect,
    ContainerModule.top, ContainerModule.logs, ContainerModule.changes,
    ContainerModule.backup, ContainerModule.stats, ContainerModule.start,
    ContainerModule.stop, ContainerModule.restart, ContainerModule.kill,
    ContainerModule.update, ContainerModule.rename, ContainerModule.pause,
    ContainerModule.prune,
    bind, URL_new, axios_get, axios_post, axios, ret, throw.

Ltac simp_run :=
  cbn [target_of endpoint_of responseType_of discards is_action
       fst snd sent outcome request_url config method body responseType headers data response
       default_config app is_undefined andb orb negb then_ catch rethrow response_data].

Ltac one_request :=
  let H := fresh in intros H; destruct H as [H|[]]; subst.

Ltac simp_shape :=
  cbn [target_of endpoint_of responseType_of discards is_action mode_unclear reads
       carries_body sets_headers
       fst snd sent outcome request_url config method body responseType headers data
       response default_config app is_undefined andb orb negb then_ catch rethrow
       response_data length].

Section Running.
Variable URL_parse : string -> option URL.
Variable transport : Request -> Exchange.

(** A call sends at most one request; when it sends one, the URL parsed
    and the request goes to the serialised endpoint. *)
Lemma sent_invoke (c : Call) (req : Request) :
  In req (sent (run (invoke URL_parse transport c))) ->
  exists u0,
    URL_parse (target_of c) = Some u0
    /\ sent (run (invoke URL_parse transport c)) = [req]
    /\ request_url req = URL_toString (endpoint_of c u0)
    /\ responseType (config req) = responseType_of c.
Proof.
  destruct c; unfold_operations; simp_run;
    destruct (URL_parse _) as [u0|]; simp_run; try contradiction;
    try (destruct binary, fromSrc; simp_run; try contradiction);
    one_request; exists u0; repeat split.
Qed.

(** How the promise of a call settles, by what came back for its request. *)
Lemma outcome_invoke (c : Call) (req : Request) :
  In req (sent (run (invoke URL_parse transport c))) ->
  outcome (run (invoke URL_parse transport c)) =
  match transport req with
  | Responded st p =>
      if validateStatus st
      then Resolved (if discards c then Undefined else decode (responseType_of c) p)
      else RejectedWith (decode (responseType_of c) p)
  | Failed _ =>
      RejectedWith (TypeError "Cannot read properties of undefined (reading 'data')")
  end.
Proof.
  destruct c; unfold_operations; simp_run;
    destruct (URL_parse _) as [u0|]; simp_run; try contradiction;
    try (destruct binary, fromSrc; simp_run; try contradiction);
    one_request; unfold settle; simp_run;
    (destruct (transport _) as [st p|code]; [destruct (validateStatus st)|]); reflexivity.
Qed.

Lemma error_status (st : Z) : 400 <= st -> validateStatus st = false.
Proof. unfold validateStatus. intros H. apply andb_false_iff. right. lia. Qed.

(** An operation that asks for JSON rejects with the daemon's error body. *)
Lemma json_operations_reject_with_body (c : Call) (req : Request) (st : Z) (j : Json) :
  responseType_of c = json ->
  In req (sent (run (invoke URL_parse transport c))) ->
  transport req = Responded st (Document j) ->
  400 <= st ->
  outcome (run (invoke URL_parse transport c)) = RejectedWith (Data j).
Proof.
  intros Ht Hreq Hresp Hst.
  rewrite (outcome_invoke c req Hreq), Hresp, (error_status st Hst), Ht.
  reflexivity.
Qed.

(** ** Image create: the mode check *)

(** C1. [ImageModule.create] with both [binary] and [fromSrc], or with
    neither, throws before any request is sent: the error is the local
    "Create mode is not clear" error once the URL has parsed. With exactly
    one of them nothing is thrown and one POST request is sent to the
    endpoint. *)
Theorem image_create_mode_check
    (url : string) (binary : option Buffer) (authConfig : option Json)
    (fromImage fromSrc repo tag message : option string)
    (changes : option StringArray) (platform : option string) :
  let r := run (ImageModule.create URL_parse transport url binary authConfig
                  fromImage fromSrc repo tag message changes platform) in
  match binary, fromSrc with
  | Some _, None | None, Some _ =>
      forall u0, URL_parse (url ++ "/images/create") = Some u0 ->
        (exists req,
            sent r = [req] /\ method req = POST
            /\ request_url req = URL_toString
                 (ImageModule.create_endpoint fromImage fromSrc repo tag message
                    changes platform u0))
        /\ (exists v, outcome r = Resolved v \/ outcome r = RejectedWith v)
  | _, _ =>
      sent r = []
      /\ exists e,
          outcome r = Threw e
          /\ (forall u0, URL_parse (url ++ "/images/create") = Some u0 ->
              e = Error_ "Create mode is not clear. Use fromSrc or binary")
  end.
Proof.
  unfold_operations.
  destruct binary as [b|], fromSrc as [src|]; simp_run.
  - destruct (URL_parse _) as [u0|]; simp_run; (split; [reflexivity|]);
      eexists; (split; [reflexivity|]); [reflexivity | discriminate].
  - intros u0 ->. simp_run. split.
    + eexists. repeat split.
    + unfold settle. simp_run.
      destruct (transport _) as [st p|code]; [destruct (validateStatus st)|];
        simp_run; eexists; eauto.
  - intros u0 ->. simp_run. split.
    + eexists. repeat split.
    + unfold settle. simp_run.
      destruct (transport _) as [st p|code]; [destruct (validateStatus st)|];
        simp_run; eexists; eauto.
  - destruct (URL_parse _) as [u0|]; simp_run; (split; [reflexivity|]);
      eexists; (split; [reflexivity|]); [reflexivity | discriminate].
Qed.

(** ** Daemon errors *)

(** C2. [logs] and [backup] ask axios for a stream, so when the daemon
    answers with a status of 400 or more and a JSON body they reject with
    the unread stream of the response and not with the body object. *)
Theorem stream_operations_reject_with_stream
    (c : Call) (req : Request) (st : Z) (j : Json) :
  responseType_of c = stream ->
  In req (sent (run (invoke URL_parse transport c))) ->
  transport req = Responded st (Document j) ->
  400 <= st ->
  outcome (run (invoke URL_parse transport c)) = RejectedWith (Stream (Document j))
  /\ outcome (run (invoke URL_parse transport c)) <> RejectedWith (Data j).
Proof.
  intros Ht Hreq Hresp Hst.
  rewrite (outcome_invoke c req Hreq), Hresp, (error_status st Hst), Ht.
  split; [reflexivity | discriminate].
Qed.

(** ** Container stats *)

(** C3. [ContainerModule.stats] either fails on a URL that does not parse,
    or sends one GET request whose query is the serialised parameter list
    ending in [stream=false&one-shot=true]. *)
Theorem stats_forces_single_snapshot (url id : string) :
  let r := run (ContainerModule.stats URL_parse transport url id) in
  match URL_parse (url ++ "/containers/" ++ id ++ "/stats") with
  | None => sent r = [] /\ outcome r = Threw (TypeError "Invalid URL")
  | Some u0 =>
      let params := (searchParams u0 ++ [("stream", "false"); ("one-shot", "true")])%list in
      exists req,
        sent r = [req] /\ method req = GET
        /\ request_url req =
             href_base u0 ++ "?" ++ form_serialize params
             ++ match hash u0 with Some f => "#" ++ f | None => "" end
        /\ getAll "stream" params = (getAll "stream" (searchParams u0) ++ ["false"])%list
        /\ getAll "one-shot" params = (getAll "one-shot" (searchParams u0) ++ ["true"])%list
        /\ exists before, form_serialize params = before ++ "stream=false&one-shot=true"
  end.
Proof.
  unfold_operations.
  destruct (URL_parse _) as [u0|]; simp_run; [|split; reflexivity].
  eexists. split; [reflexivity|]. split; [reflexivity|]. simp_run.
  unfold ContainerModule.stats_endpoint, URL_toString.
  rewrite query_append. cbn [href_base hash append searchParams].
  rewrite <- app_assoc. cbn [app].
  split; [now rewrite string_app_assoc|].
  split; [rewrite getAll_app; reflexivity|].
  split; [rewrite getAll_app; reflexivity|].
  change [("stream", "false"); ("one-shot", "true")]
    with ([("stream", "false")] ++ [("one-shot", "true")])%list.
  rewrite app_assoc, form_serialize_snoc, form_serialize_snoc.
  destruct (searchParams u0) as [|kv l]; cbn [app].
  - exists "". reflexivity.
  - exists (form_serialize (kv :: l) ++ "&").
    rewrite !string_app_assoc. reflexivity.
Qed.
End Running.

(** ** Optional arguments *)

Lemma extends_refl (u : URL) : extends u u.
Proof. unfold extends. auto. Qed.

Lemma extends_append (u e : URL) (k v : string) :
  extends u e -> extends u (append k v e).
Proof.
  intros (Hb & Hh & _). unfold extends.
  rewrite query_append. cbn [append href_base hash searchParams]. auto.
Qed.

Lemma extends_when {A} `{Truthy A} (u e : URL) (x : option A) (f : A -> URL -> URL) :
  (forall a e', extends u e' -> extends u (f a e')) ->
  extends u e -> extends u (when x f e).
Proof.
  intros Hf He. unfold when. destruct x as [a|]; [|exact He].
  destruct (truthy a); auto.
Qed.

Lemma extends_forEach (u e : URL) (k : string) (l : StringArray) :
  extends u e -> extends u (fold_left (fun endpoint x => append k x endpoint) l e).
Proof.
  revert e. induction l as [|x l IH]; intros e He; cbn [fold_left]; [exact He|].
  apply IH, extends_append, He.
Qed.

Ltac extends_step :=
  first [ apply extends_when; [intros ? ? ?|]
        | apply extends_forEach
        | apply extends_append
        | assumption
        | apply extends_refl ].

Lemma endpoint_of_extends (c : Call) (u : URL) : extends u (endpoint_of c u).
Proof.
  destruct c; cbn [endpoint_of];
    unfold ImageModule.list_endpoint, ImageModule.build_endpoint,
      ImageModule.buildPrune_endpoint, ImageModule.create_endpoint,
      ContainerModule.list_endpoint, ContainerModule.create_endpoint,
      ContainerModule.inspect_endpoint, ContainerModule.top_endpoint,
      ContainerModule.logs_endpoint, ContainerModule.stats_endpoint,
      ContainerModule.stop_endpoint, ContainerModule.restart_endpoint,
      ContainerModule.kill_endpoint, ContainerModule.rename_endpoint;
    cbv zeta; repeat extends_step.
Qed.

Lemma guarded_distinct (c : Call) : distinct (map fst (guarded c)) = true.
Proof. destruct c; reflexivity. Qed.

Lemma getAll_absent (k : string) (T : list (string * Arg)) :
  ~ In k (map fst T) -> getAll k (flat_map sends T) = [].
Proof.
  induction T as [|[k' a'] T IH]; [reflexivity|].
  cbn [map fst flat_map In]. intros H.
  rewrite getAll_app, getAll_sends. cbn [fst snd].
  destruct (String.eqb k' k) eqn:E.
  - apply String.eqb_eq in E. tauto.
  - apply IH. tauto.
Qed.

Lemma guarded_no_fromSrc (c : Call) : ~ In "fromSrc" (map fst (guarded c)).
Proof.
  unfold guarded. intros H. apply in_map_iff in H as ((k & a) & Hk & HIn).
  apply filter_In in HIn as (_ & Hf). cbn [fst] in *. subst.
  discriminate.
Qed.

(** Under a key other than [fromSrc], the endpoint of a call gains exactly
    the values of the argument listed under that key, and only when the
    argument is truthy. *)
Lemma getAll_endpoint_of (c : Call) (u : URL) (k : string) (a : Arg) :
  In (k, a) (optional_args c) -> k <> "fromSrc" ->
  getAll k (searchParams (endpoint_of c u)) =
  (getAll k (searchParams u) ++ if supplied a then serialized a else [])%list.
Proof.
  intros HIn Hk.
  rewrite endpoint_of_params, !getAll_app.
  assert (getAll k (forced c) = []) as ->.
  { destruct c; cbn [forced]; try reflexivity; try contradiction.
    unfold getAll. cbn [filter fst]. destruct (String.eqb "fromSrc" k) eqn:E; [|reflexivity].
    apply String.eqb_eq in E. congruence. }
  cbn [app]. f_equal.
  apply getAll_table; [apply guarded_distinct|].
  unfold guarded. apply filter_In. split; [exact HIn|].
  cbn [fst]. apply negb_true_iff. apply String.eqb_neq. exact Hk.
Qed.

(** [ImageModule.create] always sends [fromSrc]. *)
Lemma getAll_fromSrc
    (fromImage fromSrc repo tag message : option string)
    (changes : option StringArray) (platform : option string) (u : URL) :
  getAll "fromSrc"
    (searchParams
       (ImageModule.create_endpoint fromImage fromSrc repo tag message changes platform u)) =
  (getAll "fromSrc" (searchParams u) ++ [nullish fromSrc "-"])%list.
Proof.
  pose (c := ImageCreate "" None None fromImage fromSrc repo tag message changes platform).
  change (ImageModule.create_endpoint fromImage fromSrc repo tag message changes platform u)
    with (endpoint_of c u).
  rewrite endpoint_of_params, !getAll_app.
  rewrite (getAll_absent "fromSrc" (guarded c) (guarded_no_fromSrc c)).
  now rewrite app_nil_r.
Qed.

(** Only [ImageModule.create] lists an argument under [fromSrc]. *)
Lemma fromSrc_listed (c : Call) (a : Arg) :
  In ("fromSrc", a) (optional_args c) ->
  exists url binary authConfig fromImage fromSrc repo tag message changes platform,
    c = ImageCreate url binary authConfig fromImage fromSrc repo tag message changes platform
    /\ a = AString fromSrc.
Proof.
  destruct c; cbn [optional_args In]; intros H;
    repeat (destruct H as [H|H]; [try discriminate|]); try contradiction.
  inversion H; subst. repeat eexists.
Qed.

Section Requests.
Variable URL_parse : string -> option URL.
Variable transport : Request -> Exchange.

(** C4, amended. The request of a call goes to the serialised endpoint,
    whose query is untouched or the serialised parameter list. For every
    optional argument with a query parameter, except [fromSrc] of image
    create, an unset or falsy value adds nothing under the key of that
    argument. [ImageModule.create] always adds [fromSrc]: the given value,
    or [-] when the argument is unset. *)
Theorem unsupplied_arguments_send_nothing :
  (forall (c : Call) (req : Request),
      In req (sent (run (invoke URL_parse transport c))) ->
      exists u0,
        URL_parse (target_of c) = Some u0
        /\ request_url req = URL_toString (endpoint_of c u0)
        /\ extends u0 (endpoint_of c u0)
        /\ forall (k : string) (a : Arg),
            In (k, a) (optional_args c) -> supplied a = false -> k <> "fromSrc" ->
            getAll k (searchParams (endpoint_of c u0)) = getAll k (searchParams u0))
  /\ (forall (fromImage fromSrc repo tag message : option string)
        (changes : option StringArray) (platform : option string) (u : URL),
        getAll "fromSrc"
          (searchParams
             (ImageModule.create_endpoint fromImage fromSrc repo tag message changes
                platform u)) =
        (getAll "fromSrc" (searchParams u) ++ [nullish fromSrc "-"])%list).
Proof.
  split; [|exact getAll_fromSrc].
  intros c req Hreq.
  destruct (sent_invoke URL_parse transport c req Hreq) as (u0 & Hparse & _ & Hurl & _).
  exists u0. split; [exact Hparse|]. split; [exact Hurl|].
  split; [apply endpoint_of_extends|].
  intros k a HIn Hs Hk.
  rewrite (getAll_endpoint_of c u0 k a HIn Hk), Hs. apply app_nil_r.
Qed.


End Requests.

Section Responses.
Variable URL_parse : string -> option URL.
Variable transport : Request -> Exchange.

(** ** Container create *)

(** C6. [ContainerModule.create] either fails on a URL that does not
    parse, or sends one POST request to the endpoint built from
    [url/containers/create] whose body is the caller's config itself; on
    the wire the body is [JSON.stringify] of that config. *)
Theorem container_create_body_is_config
    (url : string) (containerConfig : Json) (name platform : option string) :
  let r := run (ContainerModule.create URL_parse transport url containerConfig name platform) in
  match URL_parse (url ++ "/containers/create") with
  | None => sent r = [] /\ outcome r = Threw (TypeError "Invalid URL")
  | Some u0 =>
      exists req,
        sent r = [req] /\ method req = POST
        /\ request_url req = URL_toString (ContainerModule.create_endpoint name platform u0)
        /\ body req = BodyObject containerConfig
        /\ wire (body req) = Buffer_from (JSON_stringify containerConfig)
  end.
Proof.
  unfold_operations.
  destruct (URL_parse _) as [u0|]; simp_run; [|split; reflexivity].
  eexists. repeat split.
Qed.

(** ** Image build *)

(** What [ImageModule.build] sends and returns: the body of the request is
    the text decoded from [binary], and a 2xx response resolves with the
    response data. *)
Lemma build_request_and_result
    (url : string) (binary : Buffer) (contentType : option string)
    (registryConfig : option RegistryConfig)
    (dockerfile : option string) (tags : option StringArray)
    (extraHosts remote : option string) (quiet noCache : option bool)
    (cacheFrom pull : option string)
    (removeIntermediate forceRemoveIntermediate : option bool)
    (memoryLimit memorySwap cpuShares : option Z) (cpuSetCpus : option string)
    (cpuPeriod cpuQuota : option Z) (buildArgs : option StringMap)
    (shmSize : option Z) (squash : option bool) (labels : option StringMap)
    (networkMode platform target outputs : option string) (u0 : URL) :
  let r := run (ImageModule.build URL_parse transport url binary contentType registryConfig
                  dockerfile tags extraHosts remote quiet noCache cacheFrom pull
                  removeIntermediate forceRemoveIntermediate memoryLimit memorySwap
                  cpuShares cpuSetCpus cpuPeriod cpuQuota buildArgs shmSize squash labels
                  networkMode platform target outputs) in
  URL_parse (url ++ "/build") = Some u0 ->
  exists req,
    sent r = [req] /\ method req = POST
    /\ body req = BodyString (Buffer_toString binary)
    /\ forall st p,
        transport req = Responded st p -> validateStatus st = true ->
        outcome r = Resolved (decode json p).
Proof.
  unfold_operations. intros ->. simp_run.
  eexists. split; [reflexivity|]. split; [reflexivity|]. split; [reflexivity|].
  intros st p Hresp Hst. simp_run. unfold settle. rewrite Hresp, Hst. reflexivity.
Qed.

(** ** State and action operations *)

(** C8. [ContainerModule.start] with [(url, "abc123")] sends one POST
    request without body to [url/containers/abc123/start] and resolves to
    [undefined] on a 2xx response. For each of start, stop, restart,
    kill, pause and rename, a 2xx response to the request resolves the
    call with [undefined]. *)
Theorem action_operations_resolve_undefined :
  (forall url : string,
      URL_parse (url ++ "/containers/abc123/start")
        = Some (verbatim (url ++ "/containers/abc123/start")) ->
      let r := run (ContainerModule.start URL_parse transport url "abc123") in
      let req := {| method := POST;
                    request_url := url ++ "/containers/abc123/start";
                    body := NoBody;
                    config := default_config |} in
      sent r = [req]
      /\ forall st p,
          transport req = Responded st p -> 200 <= st < 300 ->
          outcome r = Resolved Undefined)
  /\ (forall (c : Call) (req : Request) (st : Z) (p : Payload),
        is_action c = true ->
        In req (sent (run (invoke URL_parse transport c))) ->
        transport req = Responded st p -> 200 <= st < 300 ->
        outcome (run (invoke URL_parse transport c)) = Resolved Undefined).
Proof.
  assert (forall st, 200 <= st < 300 -> validateStatus st = true) as Hok.
  { intros st Hst. unfold validateStatus. apply andb_true_iff. split; lia. }
  split.
  - intros url0 Hparse. unfold_operations. cbn [String.append] in *.
    rewrite Hparse. simp_run. unfold URL_toString, verbatim.
    cbn [href_base query hash]. rewrite !string_app_nil_r.
    split; [reflexivity|].
    intros st p Hresp Hst. unfold settle. rewrite Hresp, (Hok st Hst). reflexivity.
  - intros c req st p Hact Hreq Hresp Hst.
    rewrite (outcome_invoke URL_parse transport c req Hreq), Hresp, (Hok st Hst).
    unfold discards. now rewrite Hact.
Qed.

(** ** Transport failures *)

(** C9. When the request of a call gets no answer, the catch handler of
    the operation reads [data] of an absent [response]: the call rejects
    with the [TypeError] of that access, whatever the transport error
    was. *)
Theorem transport_failure_rejects_with_TypeError
    (c : Call) (req : Request) (code : string) :
  In req (sent (run (invoke URL_parse transport c))) ->
  transport req = Failed code ->
  outcome (run (invoke URL_parse transport c)) =
  RejectedWith (TypeError "Cannot read properties of undefined (reading 'data')").
Proof.
  intros Hreq Hfail.
  now rewrite (outcome_invoke URL_parse transport c req Hreq), Hfail.
Qed.

(** ** Container prune *)

(** C10. [ContainerModule.prune] resolves to [undefined] on every 2xx
    response to its request, whatever the body of the response. *)
Theorem prune_discards_report (url : string) (req : Request) (st : Z) (p : Payload) :
  In req (sent (run (ContainerModule.prune URL_parse transport url))) ->
  transport req = Responded st p ->
  200 <= st < 300 ->
  outcome (run (ContainerModule.prune URL_parse transport url)) = Resolved Undefined.
Proof.
  intros Hreq Hresp Hst.
  change (ContainerModule.prune URL_parse transport url)
    with (invoke URL_parse transport (ContainerPrune url)) in *.
  rewrite (outcome_invoke URL_parse transport _ req Hreq), Hresp.
  assert (validateStatus st = true) as ->; [|reflexivity].
  unfold validateStatus. apply andb_true_iff. split; lia.
Qed.
End Responses.

(** ** Closed instances *)

(** C7. [ImageModule.build] on the one-byte buffer FF, answered with 200 and
    a progress message: the body of the request is the decoded text, which
    goes out as EF BF BD and not as FF, and the call resolves with the
    progress message and not with [undefined]. *)
Theorem build_alters_binary_and_returns_data :
  let r := run (ImageModule.build plain_URL (answering 200 (Document build_progress))
                  daemon_url [xff] None None None None None None None None None None None None None None None None None None None None None None None None None None) in
  exists req,
    sent r = [req]
    /\ method req = POST
    /\ request_url req = "http://localhost:2375/build"
    /\ body req = BodyString (Buffer_toString [xff])
    /\ wire (body req) = [xef; xbf; xbd]
    /\ wire (body req) <> [xff]
    /\ outcome r = Resolved (Data build_progress)
    /\ outcome r <> Resolved Undefined.
Proof.
  eexists. repeat split; try reflexivity; vm_compute; discriminate.
Qed.

(** C1 at a buffer and no [fromSrc], on a network that does not answer: the
    request is sent and nothing is thrown. *)
Lemma image_create_mode_check_witness :
  let r := run (ImageModule.create plain_URL unreachable daemon_url (Some []) None
                  None None None None None None None) in
  (exists req,
      sent r = [req] /\ method req = POST
      /\ request_url req = "http://localhost:2375/images/create?fromSrc=-")
  /\ (exists v, outcome r = Resolved v \/ outcome r = RejectedWith v).
Proof.
  exact (image_create_mode_check plain_URL unreachable daemon_url (Some []) None
           None None None None None None None
           (verbatim "http://localhost:2375/images/create") eq_refl).
Defined.

(** C2 at [logs] answered with 404 and the body [no_such_container]. *)
Lemma stream_operations_reject_with_stream_witness :
  outcome (run (invoke plain_URL (answering 404 (Document no_such_container)) logs_call))
    = RejectedWith (Stream (Document no_such_container))
  /\ outcome (run (invoke plain_URL (answering 404 (Document no_such_container)) logs_call))
    <> RejectedWith (Data no_such_container).
Proof.
  apply (stream_operations_reject_with_stream plain_URL
           (answering 404 (Document no_such_container)) logs_call logs_request 404
           no_such_container).
  - reflexivity.
  - left. reflexivity.
  - reflexivity.
  - discriminate.
Defined.

(** C4: image create with a buffer and without [fromSrc] lists the unset
    argument [fromSrc] among its optional arguments and still sends
    [fromSrc=-]; so unset arguments do not all stay out of the URL. *)
Lemma fromSrc_sent_when_unset :
  In ("fromSrc", AString None) (optional_args import_call)
  /\ supplied (AString None) = false
  /\ map request_url (sent (run (invoke plain_URL unreachable import_call)))
     = ["http://localhost:2375/images/create?fromSrc=-"]
  /\ getAll "fromSrc"
       (searchParams (endpoint_of import_call (verbatim "http://localhost:2375/images/create")))
     = ["-"]
  /\ ~ (forall (c : Call) (u : URL) (k : string) (a : Arg),
          In (k, a) (optional_args c) -> supplied a = false ->
          getAll k (searchParams (endpoint_of c u)) = getAll k (searchParams u)).
Proof.
  split; [left; reflexivity|]. split; [reflexivity|].
  split; [reflexivity|]. split; [reflexivity|].
  intros H.
  specialize (H import_call (verbatim "http://localhost:2375/images/create")
                "fromSrc" (AString None) (or_introl eq_refl) eq_refl).
  discriminate H.
Qed.

(** C4, amended, at container list with [all = false] and [limit = 5]: the
    request carries no [all]. *)
Lemma unsupplied_arguments_send_nothing_witness :
  exists u0,
    plain_URL (target_of list_call) = Some u0
    /\ request_url list_request = URL_toString (endpoint_of list_call u0)
    /\ getAll "all" (searchParams (endpoint_of list_call u0)) = getAll "all" (searchParams u0).
Proof.
  destruct (proj1 (unsupplied_arguments_send_nothing plain_URL unreachable)
              list_call list_request (or_introl eq_refl))
    as (u0 & Hparse & Hurl & _ & Hargs).
  exists u0. split; [exact Hparse|]. split; [exact Hurl|].
  apply (Hargs "all" (ABoolean (Some false))).
  - left. reflexivity.
  - reflexivity.
  - discriminate.
Defined.



(** C8 at the daemon URL, answered with 204 and an empty body. *)
Lemma action_operations_resolve_undefined_witness :
  sent (run (ContainerModule.start plain_URL (answering 204 (Raw "")) daemon_url "abc123"))
    = [post_request "http://localhost:2375/containers/abc123/start"]
  /\ outcome (run (ContainerModule.start plain_URL (answering 204 (Raw "")) daemon_url "abc123"))
    = Resolved Undefined
  /\ outcome (run (invoke plain_URL (answering 204 (Raw ""))
                     (ContainerRename daemon_url "abc123" "web")))
    = Resolved Undefined.
Proof.
  pose proof (action_operations_resolve_undefined plain_URL (answering 204 (Raw "")))
    as [Hstart Hall].
  destruct (Hstart daemon_url eq_refl) as [Hsent Hout].
  split; [exact Hsent|]. split.
  - apply (Hout 204 (Raw "")); [reflexivity | lia].
  - apply (Hall (ContainerRename daemon_url "abc123" "web")
             (post_request "http://localhost:2375/containers/abc123/rename?name=web")
             204 (Raw "")).
    + reflexivity.
    + left. reflexivity.
    + reflexivity.
    + lia.
Defined.

(** C9 at [logs] on a network that refuses the connection. *)
Lemma transport_failure_rejects_with_TypeError_witness :
  outcome (run (invoke plain_URL unreachable logs_call)) =
  RejectedWith (TypeError "Cannot read properties of undefined (reading 'data')").
Proof.
  apply (transport_failure_rejects_with_TypeError plain_URL unreachable logs_call
           logs_request "ECONNREFUSED").
  - left. reflexivity.
  - reflexivity.
Defined.

(** C10 at the daemon URL, answered with 200 and a prune report. *)
Lemma prune_discards_report_witness :
  outcome (run (ContainerModule.prune plain_URL (answering 200 (Document prune_report))
                  daemon_url)) = Resolved Undefined.
Proof.
  apply (prune_discards_report plain_URL (answering 200 (Document prune_report)) daemon_url
           (post_request "http://localhost:2375/containers/prune") 200 (Document prune_report)).
  - left. reflexivity.
  - reflexivity.
  - lia.
Defined.

(** * Further properties of the operations *)

Ltac unfold_endpoints :=
  unfold ImageModule.list_endpoint, ImageModule.build_endpoint,
    ImageModule.buildPrune_endpoint, ImageModule.create_endpoint,
    ContainerModule.list_endpoint, ContainerModule.create_endpoint,
    ContainerModule.inspect_endpoint, ContainerModule.top_endpoint,
    ContainerModule.logs_endpoint, ContainerModule.stats_endpoint,
    ContainerModule.stop_endpoint, ContainerModule.restart_endpoint,
    ContainerModule.kill_endpoint, ContainerModule.rename_endpoint.

Section Calls.
Variable URL_parse : string -> option URL.
Variable transport : Request -> Exchange.

(** ** Before the request *)

(** X2. On a URL that does not parse every operation throws the
    [TypeError] of [new URL] from the call itself, before anything is sent
    and before the mode check of image create: no promise is returned. *)
Theorem malformed_url_throws_synchronously (c : Call) :
  URL_parse (target_of c) = None ->
  run (invoke URL_parse transport c)
  = {| sent := []; outcome := Threw (TypeError "Invalid URL") |}.
Proof.
  destruct c; unfold_operations; simp_shape; intros ->; reflexivity.
Qed.

(** X3. The request of a call is a GET for the nine reading operations and
    a POST for the others; it has a body only for build, image create,
    container create and update, and headers only for build and image
    create. *)
Theorem request_method_body_and_headers (c : Call) (req : Request) :
  In req (sent (run (invoke URL_parse transport c))) ->
  method req = (if reads c then GET else POST)
  /\ (carries_body c = false -> body req = NoBody)
  /\ (sets_headers c = false -> headers (config req) = []).
Proof.
  destruct c; unfold_operations; simp_shape;
    destruct (URL_parse _) as [u0|]; simp_shape; try contradiction;
    try (destruct binary, fromSrc; simp_shape; try contradiction);
    one_request; simp_shape; repeat split; intros; try reflexivity; discriminate.
Qed.

(** ** How a call settles *)

(** X5. Every operation outside the action operations and prune resolves a
    2xx response with the response data: a JSON document that is
    [safe_json] comes back as the daemon sent it, and [logs] and [backup]
    hand over the unread stream. *)
Theorem data_operations_resolve_with_response_data
    (c : Call) (req : Request) (st : Z) (p : Payload) :
  discards c = false ->
  In req (sent (run (invoke URL_parse transport c))) ->
  transport req = Responded st p ->
  200 <= st < 300 ->
  (forall j, responseType_of c = json -> p = Document j -> safe_json j = true ->
     outcome (run (invoke URL_parse transport c)) = Resolved (Data j))
  /\ (responseType_of c = stream ->
        outcome (run (invoke URL_parse transport c)) = Resolved (Stream p)).
Proof.
  intros Hd Hreq Hresp Hst.
  rewrite (outcome_invoke URL_parse transport c req Hreq), Hresp, Hd.
  assert (validateStatus st = true) as ->.
  { unfold validateStatus. apply andb_true_iff. split; lia. }
  split.
  - intros j -> -> _. reflexivity.
  - intros ->. reflexivity.
Qed.

(** ** Requests without options *)

Lemma when_unsupplied {A} `{Truthy A} (x : option A) (f : A -> URL -> URL) (u : URL) :
  truthy x = false -> when x f u = u.
Proof.
  unfold when. destruct x as [a|]; [|reflexivity].
  cbn. intros ->. reflexivity.
Qed.

Lemma endpoint_untouched (c : Call) (u : URL) :
  forced c = [] ->
  (forall k a, In (k, a) (optional_args c) -> supplied a = false) ->
  endpoint_of c u = u.
Proof.
  intros Hf H.
  assert (Forall (fun ka => supplied (snd ka) = false) (optional_args c)) as HF.
  { apply Forall_forall. intros [k a] HIn. exact (H k a HIn). }
  clear H.
  destruct c; cbn [forced] in Hf; try discriminate Hf;
    cbn [optional_args] in HF; cbn [endpoint_of]; unfold_endpoints; cbv zeta;
    try reflexivity.
  all: repeat match type of HF with
         | Forall _ (_ :: _) =>
             let H1 := fresh "Harg" in
             apply Forall_cons_iff in HF; destruct HF as [H1 HF];
             cbn [snd supplied] in H1
         end.
  all: repeat (rewrite when_unsupplied by assumption).
  all: reflexivity.
Qed.

(** X10. When an operation has no forced parameter and none of its optional
    arguments is truthy, its request goes to the URL exactly as it parsed:
    nothing is appended and an existing query is not rewritten. *)
Theorem no_options_no_query (c : Call) (req : Request) :
  forced c = [] ->
  (forall k a, In (k, a) (optional_args c) -> supplied a = false) ->
  In req (sent (run (invoke URL_parse transport c))) ->
  exists u0, URL_parse (target_of c) = Some u0 /\ request_url req = URL_toString u0.
Proof.
  intros Hf Hargs Hreq.
  destruct (sent_invoke URL_parse transport c req Hreq) as (u0 & Hparse & _ & Hurl & _).
  exists u0. split; [exact Hparse|].
  now rewrite Hurl, (endpoint_untouched c u0 Hf Hargs).
Qed.
End Calls.

(** ** The query string *)

(** X11. The search parameters of the endpoint of a call are those the url
    already had, in their order, then the forced ones, then those of the
    truthy optional arguments in the order the operation tests them. *)
Theorem parameters_are_appended_in_source_order (c : Call) (u : URL) :
  searchParams (endpoint_of c u) =
  (searchParams u ++ forced c ++ flat_map sends (guarded c))%list.
Proof. apply endpoint_of_params. Qed.

Lemma occurrences_app (ch : ascii) (a b : string) :
  occurrences ch (a ++ b) = (occurrences ch a + occurrences ch b)%nat.
Proof.
  induction a as [|c a IH]; cbn [String.append occurrences]; [reflexivity | rewrite IH; lia].
Qed.

Lemma form_encode_char_clean (c : ascii) :
  occurrences "&" (form_encode_char c) = O
  /\ occurrences "=" (form_encode_char c) = O
  /\ occurrences "#" (form_encode_char c) = O.
Proof.
  destruct c as [[|] [|] [|] [|] [|] [|] [|] [|]]; repeat split.
Qed.

Lemma form_encode_clean (s : string) :
  occurrences "&" (form_encode s) = O
  /\ occurrences "=" (form_encode s) = O
  /\ occurrences "#" (form_encode s) = O.
Proof.
  induction s as [|c s (IH1 & IH2 & IH3)]; [repeat split|].
  cbn [form_encode]. rewrite !occurrences_app, IH1, IH2, IH3.
  destruct (form_encode_char_clean c) as (-> & -> & ->). repeat split.
Qed.

Lemma form_pair_counts (kv : string * string) :
  occurrences "&" (form_pair kv) = O
  /\ occurrences "=" (form_pair kv) = 1%nat
  /\ occurrences "#" (form_pair kv) = O.
Proof.
  unfold form_pair. rewrite !occurrences_app.
  destruct (form_encode_clean (fst kv)) as (-> & -> & ->).
  destruct (form_encode_clean (snd kv)) as (-> & -> & ->).
  repeat split.
Qed.

Lemma form_serialize_counts (l : Params) :
  occurrences "=" (form_serialize l) = length l
  /\ occurrences "&" (form_serialize l) = (length l - 1)%nat
  /\ occurrences "#" (form_serialize l) = O.
Proof.
  unfold form_serialize. induction l as [|kv l (IH1 & IH2 & IH3)]; [repeat split|].
  destruct l as [|kv' l].
  - cbn [map join length]. destruct (form_pair_counts kv) as (-> & -> & ->). repeat split.
  - change (join "&" (map form_pair (kv :: kv' :: l)))
      with (form_pair kv ++ "&" ++ join "&" (map form_pair (kv' :: l))).
    rewrite !occurrences_app, IH1, IH2, IH3.
    destruct (form_pair_counts kv) as (-> & -> & ->).
    cbn [occurrences length Ascii.eqb Bool.eqb]. repeat split; cbn; lia.
Qed.

(** X12. Starting from the URL as it parsed, a call either leaves it alone
    or gives it a query with one [=] per search parameter, [&] only between
    parameters and no [#], whatever characters the values it appends
    contain: a value handed to [searchParams.append] cannot add a parameter
    or start a fragment. The url, id and image name that go into the string
    given to [new URL] are not covered. *)
Theorem query_has_one_pair_per_parameter (c : Call) (u : URL) :
  endpoint_of c u = u
  \/ exists q,
      query (endpoint_of c u) = Some q
      /\ occurrences "=" q = length (searchParams (endpoint_of c u))
      /\ occurrences "&" q = (length (searchParams (endpoint_of c u)) - 1)%nat
      /\ occurrences "#" q = O.
Proof.
  destruct (endpoint_of_extends c u) as (_ & _ & [H|H]); [left; exact H|].
  right. eexists. split; [exact H|].
  apply form_serialize_counts.
Qed.

(** X13. An empty filter map or string map is truthy and is sent as [{}],
    an empty [changes] array as [[]]; an empty [tags] array passes its test
    and adds nothing. *)
Theorem empty_collections_are_sent (c : Call) (u : URL) (k : string) :
  (In (k, AFilters (Some [])) (optional_args c) ->
     getAll k (searchParams (endpoint_of c u)) = (getAll k (searchParams u) ++ ["{}"])%list)
  /\ (In (k, AMap (Some [])) (optional_args c) ->
     getAll k (searchParams (endpoint_of c u)) = (getAll k (searchParams u) ++ ["{}"])%list)
  /\ (In (k, AStrings (Some [])) (optional_args c) ->
     getAll k (searchParams (endpoint_of c u)) = (getAll k (searchParams u) ++ ["[]"])%list)
  /\ (In (k, AEach (Some [])) (optional_args c) ->
     getAll k (searchParams (endpoint_of c u)) = getAll k (searchParams u)).
Proof.
  assert (forall a, In (k, a) (optional_args c) ->
            (forall x, a <> AString x) -> k <> "fromSrc") as Hk.
  { intros a HIn Ha ->.
    destruct (fromSrc_listed c a HIn) as (? & ? & ? & ? & x & ? & ? & ? & ? & ? & _ & ->).
    now apply (Ha x). }
  repeat split; intros HIn;
    rewrite (getAll_endpoint_of c u k _ HIn (Hk _ HIn ltac:(discriminate)));
    cbn; now rewrite ?app_nil_r.
Qed.

(** ** The body of a build *)

Lemma utf8_decode_ascii (b : Buffer) :
  is_ascii b = true -> utf8_decode utf8_idle b = b.
Proof.
  induction b as [|x b IH]; [reflexivity|].
  cbn [is_ascii forallb]. intros H. apply andb_true_iff in H as [Hx Hb].
  cbn [utf8_decode utf8_step utf8_idle needed]. unfold utf8_lead.
  rewrite Hx. cbn [fst snd app]. f_equal. apply IH, Hb.
Qed.

Lemma utf8_lead_length (x : byte) :
  utf8_state_ok (fst (utf8_lead x))
  /\ (1 <= length (snd (utf8_lead x)) + owed (fst (utf8_lead x)))%nat.
Proof.
  unfold utf8_lead, utf8_state_ok, owed.
  destruct (byte_code x <=? 127)%N; [cbn; split; [auto | lia]|].
  destruct ((194 <=? byte_code x) && (byte_code x <=? 223))%N; [cbn; split; [right|]; lia|].
  destruct ((224 <=? byte_code x) && (byte_code x <=? 239))%N; [cbn; split; [right|]; lia|].
  destruct ((240 <=? byte_code x) && (byte_code x <=? 244))%N; [cbn; split; [right|]; lia|].
  cbn; split; [auto | lia].
Qed.

(** The decoder writes at least as many bytes as it reads: a byte is copied
    or becomes part of a three-byte replacement that stands for at most
    three bytes. *)
Lemma utf8_decode_length (b : Buffer) (st : Utf8State) :
  utf8_state_ok st ->
  (length b + owed st <= length (utf8_decode st b))%nat.
Proof.
  revert st. induction b as [|x b IH]; intros st Hst.
  - cbn [utf8_decode length]. unfold owed.
    destruct (needed st) eqn:E; [cbn; lia|].
    destruct Hst as [H|H]; [congruence|]. cbn [replacement length]. lia.
  - cbn [utf8_decode]. rewrite length_app. cbn [length].
    unfold utf8_step, owed. destruct (needed st) as [|k] eqn:E.
    + destruct (utf8_lead_length x) as [Hok Hlen].
      specialize (IH _ Hok). lia.
    + destruct Hst as [H|H]; [congruence|]. rewrite E in H.
      destruct ((lower st <=? byte_code x) && (byte_code x <=? upper st))%N.
      * destruct k as [|k]; cbn [fst snd].
        -- rewrite length_app. cbn [length].
           pose proof (IH utf8_idle (or_introl eq_refl)) as IH'.
           unfold owed in IH'. cbn [utf8_idle needed] in IH'. lia.
        -- cbn [length].
           pose proof (IH {| needed := S k; pending := (pending st ++ [x])%list;
                             lower := 128; upper := 191 |}) as IH'.
           unfold owed, utf8_state_ok in IH'. cbn [needed pending] in IH'.
           rewrite length_app in IH'. cbn [length] in IH'.
           assert ((length b + (length (pending st) + 1) <=
                    length (utf8_decode
                      {| needed := S k; pending := (pending st ++ [x])%list;
                         lower := 128; upper := 191 |} b))%nat) as IH''.
           { apply IH'. right. lia. }
           lia.
      * cbn [fst snd]. rewrite length_app. cbn [replacement length].
        destruct (utf8_lead_length x) as [Hok Hlen].
        specialize (IH _ Hok). unfold owed in Hlen, IH. lia.
Qed.

Lemma wire_of_decoded (b : Buffer) :
  wire (BodyString (Buffer_toString b)) = utf8_decode utf8_idle b.
Proof.
  unfold wire, Buffer_from, Buffer_toString. apply list_byte_of_string_of_list_byte.
Qed.

Section Build.
Variable URL_parse : string -> option URL.
Variable transport : Request -> Exchange.
Variables (url : string) (binary : Buffer) (contentType : option string)
  (registryConfig : option RegistryConfig)
  (dockerfile : option string) (tags : option StringArray)
  (extraHosts remote : option string) (quiet noCache : option bool)
  (cacheFrom pull : option string)
  (removeIntermediate forceRemoveIntermediate : option bool)
  (memoryLimit memorySwap cpuShares : option Z) (cpuSetCpus : option string)
  (cpuPeriod cpuQuota : option Z) (buildArgs : option StringMap)
  (shmSize : option Z) (squash : option bool) (labels : option StringMap)
  (networkMode platform target outputs : option string).

Let built : Run :=
  run (ImageModule.build URL_parse transport url binary contentType registryConfig
         dockerfile tags extraHosts remote quiet noCache cacheFrom pull removeIntermediate forceRemoveIntermediate memoryLimit memorySwap cpuShares cpuSetCpus cpuPeriod cpuQuota buildArgs shmSize squash labels networkMode platform target outputs).

(** axios's rewriting of a string body under a JSON [Content-Type]. *)
Variable stringifySafely : string -> string.

(** X7. When every byte of [binary] is below 0x80 and the [Content-Type] of
    the build does not mention [application/json], the bytes of the request
    body are those of [binary], and [Content-Length] is their number. *)
Theorem build_sends_ascii_archive_unchanged (u0 : URL) :
  is_ascii binary = true ->
  includes "application/json" (nullish contentType "application/x-tar") = false ->
  URL_parse (url ++ "/build") = Some u0 ->
  exists req,
    sent built = [req]
    /\ header "Content-Type" req = Some (HString (nullish contentType "application/x-tar"))
    /\ request_bytes stringifySafely req = binary
    /\ header "Content-Length" req
       = Some (HNumber (Z.of_nat (length (request_bytes stringifySafely req)))).
Proof.
  intros Hascii Hct Hparse. subst built. unfold_operations. rewrite Hparse. simp_run.
  eexists. split; [reflexivity|]. split; [reflexivity|].
  unfold request_bytes, has_json_content_type, header. simp_run.
  cbn [find fst snd String.eqb Ascii.eqb Bool.eqb]. rewrite Hct.
  change (Buffer_from (Buffer_toString binary)) with (wire (BodyString (Buffer_toString binary))).
  rewrite wire_of_decoded, (utf8_decode_ascii binary Hascii).
  split; reflexivity.
Qed.

(** X8. The [Content-Length] of a build is the length of [binary]; when the
    [Content-Type] does not mention [application/json], the body that goes
    out is the UTF-8 encoding of [binary.toString()] and is never shorter
    than that. *)
Theorem build_content_length_at_most_body (u0 : URL) :
  includes "application/json" (nullish contentType "application/x-tar") = false ->
  URL_parse (url ++ "/build") = Some u0 ->
  exists req,
    sent built = [req]
    /\ header "Content-Length" req = Some (HNumber (byteLength binary))
    /\ request_bytes stringifySafely req = Buffer_from (Buffer_toString binary)
    /\ byteLength binary <= Z.of_nat (length (request_bytes stringifySafely req)).
Proof.
  intros Hct Hparse. subst built. unfold_operations. rewrite Hparse. simp_run.
  eexists. split; [reflexivity|]. split; [reflexivity|].
  unfold request_bytes, has_json_content_type, header. simp_run.
  cbn [find fst snd String.eqb Ascii.eqb Bool.eqb]. rewrite Hct.
  split; [reflexivity|].
  change (Buffer_from (Buffer_toString binary)) with (wire (BodyString (Buffer_toString binary))).
  rewrite wire_of_decoded. unfold byteLength.
  pose proof (utf8_decode_length binary utf8_idle (or_introl eq_refl)) as H.
  unfold owed in H. cbn [utf8_idle needed] in H. lia.
Qed.
End Build.

Section Create.
Variable URL_parse : string -> option URL.
Variable transport : Request -> Exchange.

(** ** Image create and rename *)

(** X9. With a buffer and no [fromSrc], image create posts the buffer
    itself, byte for byte, and sends [fromSrc=-]; with [fromSrc] and no
    buffer it posts no body and sends [fromSrc] as given, the empty string
    included. *)
Theorem image_create_body_and_source
    (url : string) (authConfig : option Json)
    (fromImage repo tag message : option string)
    (changes : option StringArray) (platform : option string) (u0 : URL) :
  URL_parse (url ++ "/images/create") = Some u0 ->
  (forall binary : Buffer,
      let e := ImageModule.create_endpoint fromImage None repo tag message changes platform u0 in
      exists req,
        sent (run (ImageModule.create URL_parse transport url (Some binary) authConfig
                     fromImage None repo tag message changes platform)) = [req]
        /\ body req = BodyBuffer binary
        /\ wire (body req) = binary
        /\ request_url req = URL_toString e
        /\ getAll "fromSrc" (searchParams e)
           = (getAll "fromSrc" (searchParams u0) ++ ["-"])%list)
  /\ (forall fromSrc : string,
        let e := ImageModule.create_endpoint fromImage (Some fromSrc) repo tag message
                   changes platform u0 in
        exists req,
          sent (run (ImageModule.create URL_parse transport url None authConfig
                       fromImage (Some fromSrc) repo tag message changes platform)) = [req]
          /\ body req = NoBody
          /\ request_url req = URL_toString e
          /\ getAll "fromSrc" (searchParams e)
             = (getAll "fromSrc" (searchParams u0) ++ [fromSrc])%list).
Proof.
  intros Hparse. split; intros x e; subst e; unfold_operations; rewrite Hparse; simp_run;
    eexists; (split; [reflexivity|]); simp_run;
    repeat (split; [reflexivity|]); apply getAll_fromSrc.
Qed.

(** X14. Rename sends [name] whatever it is, the empty string included:
    on a url that needs no normalisation the request is a POST to
    [url/containers/id/rename?name=] followed by the encoded name. *)
Theorem rename_always_sends_name (url id name : string) :
  URL_parse (url ++ "/containers/" ++ id ++ "/rename")
    = Some (verbatim (url ++ "/containers/" ++ id ++ "/rename")) ->
  sent (run (ContainerModule.rename URL_parse transport url id name))
  = [{| method := POST;
        request_url := url ++ "/containers/" ++ id ++ "/rename?name=" ++ form_encode name;
        body := NoBody;
        config := default_config |}].
Proof.
  intros Hparse. unfold_operations. rewrite Hparse. simp_run.
  unfold ContainerModule.rename_endpoint, URL_toString, verbatim.
  rewrite query_append. cbn [href_base hash searchParams append app].
  unfold form_serialize, form_pair. cbn [map join fst snd].
  rewrite string_app_nil_r, !string_app_assoc. reflexivity.
Qed.
End Create.

(** ** Instances of the further properties *)

(** X2 at prune with an empty url: [/containers/prune] alone is no URL. *)
Lemma malformed_url_throws_synchronously_witness :
  run (invoke plain_URL unreachable (ContainerPrune ""))
  = {| sent := []; outcome := Threw (TypeError "Invalid URL") |}.
Proof.
  exact (malformed_url_throws_synchronously plain_URL unreachable (ContainerPrune "") eq_refl).
Defined.

(** X3 at [logs]: a GET without body and without headers. *)
Lemma request_method_body_and_headers_witness :
  method logs_request = GET
  /\ body logs_request = NoBody
  /\ headers (config logs_request) = [].
Proof.
  destruct (request_method_body_and_headers plain_URL unreachable logs_call logs_request
              (or_introl eq_refl)) as (Hm & Hb & Hh).
  split; [exact Hm|]. split; [exact (Hb eq_refl) | exact (Hh eq_refl)].
Defined.


(** X5 at container list answered with 200 and a JSON document. *)
Lemma data_operations_resolve_with_response_data_witness :
  outcome (run (invoke plain_URL (answering 200 (Document prune_report)) list_call))
  = Resolved (Data prune_report).
Proof.
  refine (proj1 (data_operations_resolve_with_response_data plain_URL
                   (answering 200 (Document prune_report)) list_call list_request 200
                   (Document prune_report) eq_refl (or_introl eq_refl) eq_refl _)
            prune_report eq_refl eq_refl eq_refl).
  lia.
Defined.

(** X6 at container list answered with 404 and the body
    [no_such_container]. *)
Lemma json_operations_reject_with_body_witness :
  outcome (run (invoke plain_URL (answering 404 (Document no_such_container)) list_call))
  = RejectedWith (Data no_such_container).
Proof.
  apply (json_operations_reject_with_body plain_URL
           (answering 404 (Document no_such_container)) list_call list_request 404
           no_such_container).
  - reflexivity.
  - left. reflexivity.
  - reflexivity.
  - lia.
Defined.

(** X7 at a one-line Dockerfile in place of the archive, with the default
    content type. *)
Lemma build_sends_ascii_archive_unchanged_witness :
  exists req,
    sent (run (ImageModule.build plain_URL unreachable daemon_url dockerfile_text None None
                 None None None None None None None None None None None None None None None None None None None None None None None None)) = [req]
    /\ header "Content-Type" req = Some (HString "application/x-tar")
    /\ request_bytes (fun s => s) req = dockerfile_text
    /\ header "Content-Length" req
       = Some (HNumber (Z.of_nat (length (request_bytes (fun s => s) req)))).
Proof.
  exact (build_sends_ascii_archive_unchanged plain_URL unreachable daemon_url dockerfile_text
           None None None None None None None None None None None None None None None None None None None None None None None None None None (fun s => s)
           (verbatim "http://localhost:2375/build") eq_refl eq_refl eq_refl).
Defined.

(** X8 at the one-byte buffer FF, with the default content type. *)
Lemma build_content_length_at_most_body_witness :
  exists req,
    sent (run (ImageModule.build plain_URL unreachable daemon_url [xff] None None
                 None None None None None None None None None None None None None None None None None None None None None None None None)) = [req]
    /\ header "Content-Length" req = Some (HNumber (byteLength [xff]))
    /\ request_bytes (fun s => s) req = Buffer_from (Buffer_toString [xff])
    /\ byteLength [xff] <= Z.of_nat (length (request_bytes (fun s => s) req)).
Proof.
  exact (build_content_length_at_most_body plain_URL unreachable daemon_url [xff]
           None None None None None None None None None None None None None None None None None None None None None None None None None None (fun s => s)
           (verbatim "http://localhost:2375/build") eq_refl eq_refl).
Defined.

(** X9 at the buffer FF 00, which goes out as it is. *)
Lemma image_create_body_and_source_witness :
  exists req,
    sent (run (ImageModule.create plain_URL unreachable daemon_url (Some [xff; x00]) None
                 None None None None None None None)) = [req]
    /\ body req = BodyBuffer [xff; x00]
    /\ wire (body req) = [xff; x00]
    /\ request_url req = "http://localhost:2375/images/create?fromSrc=-"
    /\ getAll "fromSrc"
         (searchParams
            (ImageModule.create_endpoint None None None None None None None
               (verbatim "http://localhost:2375/images/create")))
       = ["-"].
Proof.
  exact (proj1 (image_create_body_and_source plain_URL unreachable daemon_url None
                  None None None None None None
                  (verbatim "http://localhost:2375/images/create") eq_refl)
           [xff; x00]).
Defined.

(** X10 at container list with [limit = 0] and [size = false]. *)
Lemma no_options_no_query_witness :
  exists u0,
    plain_URL (target_of plain_list_call) = Some u0
    /\ "http://localhost:2375/containers/json" = URL_toString u0.
Proof.
  apply (no_options_no_query plain_URL unreachable plain_list_call
           {| method := GET; request_url := "http://localhost:2375/containers/json";
              body := NoBody; config := default_config |}).
  - reflexivity.
  - intros k a H. cbn in H.
    repeat (destruct H as [H|H]; [inversion H; reflexivity|]). contradiction.
  - left. reflexivity.
Defined.

(** X13 at container list with the empty filter map. *)
Lemma empty_collections_are_sent_witness :
  getAll "filters"
    (searchParams (endpoint_of empty_filters_call
                     (verbatim "http://localhost:2375/containers/json")))
  = ["{}"].
Proof.
  apply (proj1 (empty_collections_are_sent empty_filters_call
                  (verbatim "http://localhost:2375/containers/json") "filters")).
  cbn. tauto.
Defined.

(** X14 at the empty name. *)
Lemma rename_always_sends_name_witness :
  sent (run (ContainerModule.rename plain_URL unreachable daemon_url "abc123" ""))
  = [post_request "http://localhost:2375/containers/abc123/rename?name="].
Proof.
  exact (rename_always_sends_name plain_URL unreachable daemon_url "abc123" "" eq_refl).
Defined.
